(** * Expense tracker bot: the message parser and its dispatch

    A shallow embedding of [src/bot.py]: [parse_expense_message] with the
    Python built-ins it calls ([str.split], [str.strip],
    [datetime.strptime] with the format [%Y-%m-%d], [float]) and
    [handle_expense], the handler that parses a message, creates a page in
    the external database and replies.

    Conventions.
    - A Python [str] is a [string] whose characters are read as code points
      below 256.
    - [datetime.now().date()] is an input of the parser, called [today].
    - Exceptions are values: a computation is a [result], either
      [Return v] or [Raise e].
    - A Python [float] is a binary64 value, [spec_float] with [prec = 53]
      and [emax = 1024]. *)

From Stdlib Require Import ZArith Lia List Bool Ascii String.
From Stdlib Require Import Floats.SpecFloat.
Import ListNotations.

Local Open Scope string_scope.
Local Open Scope list_scope.

(** ** Exceptions and results *)

(** What [str(e)] is made of.  Messages with a [%r] of their argument keep
    the argument instead of its rendering. *)
Inductive exc_text : Type :=
| Literal (s : string)
| TooManyValues (expected : nat)
| NotEnoughValues (expected got : nat)
| FloatConversion (arg : string)
| TimeDataMismatch (data : string)
| UnconvertedData (rest : string)
| DateOutOfRange.

(** [ValueError] and its subclasses on one side, every other [Exception]
    on the other: the two [except] clauses of [handle_expense]. *)
Inductive exception : Type :=
| ValueError (text : exc_text)
| OtherException (text : exc_text).

Definition is_ValueError (e : exception) : bool :=
  match e with
  | ValueError _ => true
  | OtherException _ => false
  end.

Inductive result (A : Type) : Type :=
| Return (a : A)
| Raise (e : exception).

Arguments Return {A} a.
Arguments Raise {A} e.

Definition bind {A B : Type} (m : result A) (k : A -> result B) : result B :=
  match m with
  | Return a => k a
  | Raise e => Raise e
  end.

(** [try: body / except ValueError: handler] *)
Definition try_except_ValueError {A : Type} (body handler : result A)
  : result A :=
  match body with
  | Raise (ValueError _) => handler
  | other => other
  end.

Declare Scope result_scope.
Delimit Scope result_scope with result.
Notation "x <- m ;; k" := (bind m (fun x => k))
  (at level 61, m at next level, right associativity) : result_scope.
Notation "' p <- m ;; k" := (bind m (fun x => let p := x in k))
  (at level 61, p pattern, m at next level, right associativity)
  : result_scope.

Definition succeeded {A : Type} (r : result A) : bool :=
  match r with
  | Return _ => true
  | Raise _ => false
  end.

(** ** Strings *)

Module PyStr.

Definition code (c : ascii) : N := N_of_ascii c.

Definition in_range (lo hi : N) (c : ascii) : bool :=
  (lo <=? code c)%N && (code c <=? hi)%N.

(** [str.isspace] on one character, for code points below 256: the
    characters [str.strip()] removes. *)
Definition isspace (c : ascii) : bool :=
  in_range 9 13 c || in_range 28 32 c
  || (code c =? 133)%N || (code c =? 160)%N.

Definition is_digit (c : ascii) : bool := in_range 48 57 c.

Fixpoint all_chars (p : ascii -> bool) (s : string) : bool :=
  match s with
  | EmptyString => true
  | String c s' => p c && all_chars p s'
  end.

(** [x in s] for a character [x]. *)
Fixpoint has_char (x : ascii) (s : string) : bool :=
  match s with
  | EmptyString => false
  | String c s' => Ascii.eqb c x || has_char x s'
  end.

Fixpoint lstrip_with (sp : ascii -> bool) (s : string) : string :=
  match s with
  | EmptyString => EmptyString
  | String c s' => if sp c then lstrip_with sp s' else s
  end.

Fixpoint rstrip_with (sp : ascii -> bool) (s : string) : string :=
  match s with
  | EmptyString => EmptyString
  | String c s' =>
      match rstrip_with sp s' with
      | EmptyString => if sp c then EmptyString else String c EmptyString
      | kept => String c kept
      end
  end.

(** [s.strip()]: the left index advances over whitespace, then the right
    index retreats over whitespace down to the left one. *)
Definition strip (s : string) : string :=
  rstrip_with isspace (lstrip_with isspace s).

(** [s.split(sep)] for a one-character separator: never empty, and an
    empty piece for every separator at an end or next to another. *)
Fixpoint split (sep : ascii) (s : string) : list string :=
  match s with
  | EmptyString => [EmptyString]
  | String c s' =>
      if Ascii.eqb c sep then EmptyString :: split sep s'
      else match split sep s' with
           | piece :: pieces => String c piece :: pieces
           | [] => [String c EmptyString]
           end
  end.

(** [sep.join(pieces)] *)
Fixpoint join (sep : ascii) (pieces : list string) : string :=
  match pieces with
  | [] => EmptyString
  | [piece] => piece
  | piece :: rest => piece ++ String sep (join sep rest)
  end.

Definition comma : ascii := ","%char.

(** [s.count(x)] for a character [x]. *)
Fixpoint count_char (x : ascii) (s : string) : nat :=
  match s with
  | EmptyString => 0%nat
  | String c s' => ((if Ascii.eqb c x then 1 else 0) + count_char x s')%nat
  end.

(** The first character of [s] is in [sp]. *)
Definition starts_with (sp : ascii -> bool) (s : string) : bool :=
  match s with
  | EmptyString => false
  | String c _ => sp c
  end.

(** The last character of [s] is in [sp]. *)
Fixpoint ends_with (sp : ascii -> bool) (s : string) : bool :=
  match s with
  | EmptyString => false
  | String c EmptyString => sp c
  | String _ s' => ends_with sp s'
  end.

End PyStr.

(** ** Dates: [datetime.strptime(text, '%Y-%m-%d').date()] *)

Module Regex.

(** The fragment of [re] patterns that [_strptime] builds for the
    directives [%Y], [%m] and [%d]. *)
Inductive regex : Type :=
| Lit (c : ascii)
| AnyDigit
| Range (lo hi : ascii)
| Seq (r1 r2 : regex)
| Alt (r1 r2 : regex)
| Group (name : string) (r : regex).

Definition captures : Type := list (string * string).

Fixpoint take (n : nat) (s : string) : string :=
  match n, s with
  | S n', String c s' => String c (take n' s')
  | _, _ => EmptyString
  end.

Definition consumed (s rest : string) : string :=
  take (String.length s - String.length rest) s.

Definition one_char (p : ascii -> bool) (s : string) (caps : captures)
  : list (string * captures) :=
  match s with
  | String c s' => if p c then [(s', caps)] else []
  | EmptyString => []
  end.

(** Every way [r] matches a prefix of [s], as the text left over and the
    groups captured, in the order a backtracking matcher tries them.
    [_strptime] compiles its pattern with [IGNORECASE], which changes
    nothing for a pattern of digits, hyphens and a blank. *)
Fixpoint matches (r : regex) (s : string) (caps : captures)
  : list (string * captures) :=
  match r with
  | Lit c => one_char (Ascii.eqb c) s caps
  | AnyDigit => one_char PyStr.is_digit s caps
  | Range lo hi =>
      one_char (PyStr.in_range (PyStr.code lo) (PyStr.code hi)) s caps
  | Seq r1 r2 =>
      flat_map (fun m => matches r2 (fst m) (snd m)) (matches r1 s caps)
  | Alt r1 r2 => matches r1 s caps ++ matches r2 s caps
  | Group name r1 =>
      map (fun m => (fst m, (name, consumed s (fst m)) :: snd m))
          (matches r1 s caps)
  end.

(** [pattern.match(s)]: the first match at the start of [s], which need
    not reach its end. *)
Definition re_match (r : regex) (s : string) : option (string * captures) :=
  hd_error (matches r s []).

Fixpoint group (name : string) (caps : captures) : string :=
  match caps with
  | [] => EmptyString
  | (n, text) :: caps' =>
      if String.eqb n name then text else group name caps'
  end.

(** The texts that [r] matches as a whole. *)
Fixpoint lang (r : regex) (p : string) : Prop :=
  match r with
  | Lit c => p = String c EmptyString
  | AnyDigit => exists c, p = String c EmptyString /\ PyStr.is_digit c = true
  | Range lo hi =>
      exists c,
        p = String c EmptyString
        /\ PyStr.in_range (PyStr.code lo) (PyStr.code hi) c = true
  | Seq r1 r2 =>
      exists p1 p2, p = (p1 ++ p2)%string /\ lang r1 p1 /\ lang r2 p2
  | Alt r1 r2 => lang r1 p \/ lang r2 p
  | Group _ r1 => lang r1 p
  end.

End Regex.

Module Date.
Import Regex.

Record date : Type := mkDate { year : Z; month : Z; day : Z }.

(** [(?P<Y>\d\d\d\d)] *)
Definition directive_Y : regex :=
  Group "Y" (Seq AnyDigit (Seq AnyDigit (Seq AnyDigit AnyDigit))).

(** [(?P<m>1[0-2]|0[1-9]|[1-9])] *)
Definition directive_m : regex :=
  Group "m"
    (Alt (Seq (Lit "1") (Range "0" "2"))
    (Alt (Seq (Lit "0") (Range "1" "9"))
         (Range "1" "9"))).

(** [(?P<d>3[0-1]|[1-2]\d|0[1-9]|[1-9]| [1-9])] *)
Definition directive_d : regex :=
  Group "d"
    (Alt (Seq (Lit "3") (Range "0" "1"))
    (Alt (Seq (Range "1" "2") AnyDigit)
    (Alt (Seq (Lit "0") (Range "1" "9"))
    (Alt (Range "1" "9")
         (Seq (Lit " ") (Range "1" "9")))))).

(** The pattern of the format [%Y-%m-%d]. *)
Definition format_regex : regex :=
  Seq directive_Y
    (Seq (Lit "-") (Seq directive_m (Seq (Lit "-") directive_d))).

Definition digit_value (c : ascii) : Z := Z.of_N (PyStr.code c) - 48.

Fixpoint int_digits (acc : Z) (s : string) : Z :=
  match s with
  | EmptyString => acc
  | String c s' => int_digits (10 * acc + digit_value c) s'
  end.

(** [int(text)] on what a group of [format_regex] captures: digits, after
    an optional blank. *)
Definition int_of (text : string) : Z := int_digits 0 (PyStr.strip text).

Definition is_leap (y : Z) : bool :=
  (y mod 4 =? 0)%Z && (negb (y mod 100 =? 0)%Z || (y mod 400 =? 0)%Z).

Definition days_in_month (y m : Z) : Z :=
  if (m =? 2)%Z then (if is_leap y then 29 else 28)
  else if ((m =? 4) || (m =? 6) || (m =? 9) || (m =? 11))%Z then 30
  else 31.

(** The range check of the [date] constructor. *)
Definition valid_date (y m d : Z) : bool :=
  ((1 <=? y) && (y <=? 9999) && (1 <=? m) && (m <=? 12)
   && (1 <=? d) && (d <=? days_in_month y m))%Z.

(** [datetime.strptime(data_string, '%Y-%m-%d').date()] *)
Definition strptime (data_string : string) : result date :=
  match re_match format_regex data_string with
  | None => Raise (ValueError (TimeDataMismatch data_string))
  | Some (rest, found) =>
      if negb (String.eqb rest EmptyString)
      then Raise (ValueError (UnconvertedData rest))
      else
        let y := int_of (group "Y" found) in
        let m := int_of (group "m" found) in
        let d := int_of (group "d" found) in
        if valid_date y m d then Return (mkDate y m d)
        else Raise (ValueError DateOutOfRange)
  end.

(** The character of the last decimal digit of [n]. *)
Definition digit_char (n : Z) : ascii := ascii_of_N (Z.to_N (48 + n mod 10)).

(** [%02d] and [%04d] on a field of a [date], which the constructor keeps
    within two and four digits. *)
Definition pad2 (n : Z) : string :=
  String (digit_char (n / 10)) (String (digit_char n) EmptyString).

Definition pad4 (n : Z) : string :=
  String (digit_char (n / 1000)) (String (digit_char (n / 100)) (pad2 n)).

(** [d.isoformat()], also [str(d)]: the year, the month and the day as
    [%04d-%02d-%02d]. *)
Definition isoformat (d : date) : string :=
  (pad4 (year d) ++ String "-" (pad2 (month d) ++ String "-" (pad2 (day d))))
  %string.

(** [s] starts with four digits and a hyphen. *)
Definition starts_like_date (s : string) : bool :=
  match s with
  | String c1 (String c2 (String c3 (String c4 (String c5 _)))) =>
      PyStr.is_digit c1 && PyStr.is_digit c2 && PyStr.is_digit c3
      && PyStr.is_digit c4 && Ascii.eqb c5 "-"
  | _ => false
  end.

End Date.

(** ** Floats: [float(text)] *)

Module PyFloat.

Definition prec : Z := 53.
Definition emax : Z := 1024.

Definition float : Type := spec_float.

(** [Py_ISSPACE]: the whitespace of the C locale. *)
Definition c_isspace (c : ascii) : bool :=
  PyStr.in_range 9 13 c || (PyStr.code c =? 32)%N.

(** A string with a character outside ASCII is rewritten before it is
    read: such a character becomes a blank when it is whitespace, and a
    question mark that ends the string otherwise (below 256 no such
    character is a decimal digit); a character below 127 is kept. *)
Fixpoint transform_non_ascii (s : string) : string :=
  match s with
  | EmptyString => EmptyString
  | String c s' =>
      if (PyStr.code c <? 127)%N then String c (transform_non_ascii s')
      else if PyStr.isspace c then String " " (transform_non_ascii s')
      else String "?" EmptyString
  end.

Definition is_ascii (c : ascii) : bool := (PyStr.code c <? 128)%N.

Definition transform_decimal_and_space (s : string) : string :=
  if PyStr.all_chars is_ascii s then s else transform_non_ascii s.

(** Digit grouping: an underscore is allowed only between two digits.
    [prev] is the character before [s]; the result is [s] without its
    underscores, or [None] when one is misplaced. *)
Fixpoint remove_underscores (prev : ascii) (s : string) : option string :=
  match s with
  | EmptyString =>
      if Ascii.eqb prev "_" then None else Some EmptyString
  | String c s' =>
      if Ascii.eqb c "_" then
        if PyStr.is_digit prev then remove_underscores c s' else None
      else if Ascii.eqb prev "_" && negb (PyStr.is_digit c) then None
      else option_map (String c) (remove_underscores c s')
  end.

(** The longest prefix of [s] made of characters in [p], and the rest. *)
Fixpoint span (p : ascii -> bool) (s : string) : string * string :=
  match s with
  | EmptyString => (EmptyString, EmptyString)
  | String c s' =>
      if p c then let (taken, rest) := span p s' in (String c taken, rest)
      else (EmptyString, s)
  end.

Definition sign_of (s : string) : bool * string :=
  match s with
  | String "-" s' => (true, s')
  | String "+" s' => (false, s')
  | _ => (false, s)
  end.

Definition to_lower (c : ascii) : ascii :=
  if PyStr.in_range 65 90 c then ascii_of_N (PyStr.code c + 32) else c.

(** [case_insensitive_match]: [s] starts with the lower-case word [t],
    whatever the case of its letters; the text after it. *)
Fixpoint match_word (t s : string) : option string :=
  match t, s with
  | EmptyString, _ => Some s
  | String ct t', String cs s' =>
      if Ascii.eqb (to_lower cs) ct then match_word t' s' else None
  | String _ _, EmptyString => None
  end.

(** [round(num / den)] to the nearest binary64, ties to even, with the
    sign [neg]; overflow gives an infinity and underflow a zero. *)
Definition round_quotient (neg : bool) (num den : positive) : float :=
  let '(q, e, loc) := SFdiv_core_binary prec emax (Zpos num) 0 (Zpos den) 0 in
  binary_round_aux prec emax neg q e loc.

(** The binary64 nearest to [mantissa * 10 ^ exp10]. *)
Definition of_decimal (neg : bool) (mantissa : Z) (exp10 : Z) : float :=
  match mantissa with
  | Zpos m =>
      if (0 <=? exp10)%Z
      then round_quotient neg (m * Z.to_pos (10 ^ exp10)) 1
      else round_quotient neg m (Z.to_pos (10 ^ (- exp10)))
  | _ => S754_zero neg
  end.

(** The exponent part after the digits: [e] or [E], a sign if any, and at
    least one digit; otherwise nothing of it is read. *)
Definition parse_exponent (s : string) : Z * string :=
  match s with
  | String c s1 =>
      if Ascii.eqb c "e" || Ascii.eqb c "E" then
        let (eneg, s2) := sign_of s1 in
        let (digits, rest) := span PyStr.is_digit s2 in
        match digits with
        | EmptyString => (0%Z, s)
        | _ =>
            let abs_exp := Date.int_digits 0 digits in
            ((if eneg then - abs_exp else abs_exp)%Z, rest)
        end
      else (0%Z, s)
  | EmptyString => (0%Z, s)
  end.

(** [strtod] on a decimal numeral: a sign if any, digits with at most
    one point among them and at least one digit, an exponent if any.
    The value read and the text left, or [None] when no number starts
    the text. *)
Definition parse_decimal (s : string) : option (float * string) :=
  let (neg, s1) := sign_of s in
  let (int_part, s2) := span PyStr.is_digit s1 in
  let '(frac_part, s3) :=
    match s2 with
    | String "." s2' => span PyStr.is_digit s2'
    | _ => (EmptyString, s2)
    end in
  match (int_part ++ frac_part)%string with
  | EmptyString => None
  | digits =>
      let (e, rest) := parse_exponent s3 in
      Some (of_decimal neg (Date.int_digits 0 digits)
              (e - Z.of_nat (String.length frac_part)), rest)
  end.

(** [_Py_parse_inf_or_nan]: a sign if any, then [inf], [infinity] or
    [nan] in any case. *)
Definition parse_inf_or_nan (s : string) : option (float * string) :=
  let (neg, s1) := sign_of s in
  match match_word "inf" s1 with
  | Some s2 =>
      match match_word "inity" s2 with
      | Some s3 => Some (S754_infinity neg, s3)
      | None => Some (S754_infinity neg, s2)
      end
  | None =>
      match match_word "nan" s1 with
      | Some s2 => Some (S754_nan, s2)
      | None => None
      end
  end.

(** [PyOS_string_to_double]: a numeral first, the special values when
    no numeral starts the text. *)
Definition string_to_double (s : string) : option (float * string) :=
  match parse_decimal s with
  | Some r => Some r
  | None => parse_inf_or_nan s
  end.

(** [float_from_string_inner]: whitespace is stripped and the number
    must be the whole of what remains. *)
Definition from_string_inner (s : string) : option float :=
  match PyStr.rstrip_with c_isspace (PyStr.lstrip_with c_isspace s) with
  | EmptyString => None
  | body =>
      match string_to_double body with
      | Some (x, EmptyString) => Some x
      | _ => None
      end
  end.

(** [float(text)] for a [str] argument. *)
Definition float_of_str (text : string) : result float :=
  let s := transform_decimal_and_space text in
  let parsed :=
    if PyStr.has_char "_" s
    then match remove_underscores "000" s with
         | Some s' => from_string_inner s'
         | None => None
         end
    else from_string_inner s in
  match parsed with
  | Some x => Return x
  | None => Raise (ValueError (FloatConversion text))
  end.

(** [0 < x] on floats: false for zeros, negative numbers and NaN. *)
Definition is_positive (x : float) : bool :=
  SFltb (S754_zero false) x.

(** The characters a numeral can start with, once whitespace is
    stripped: a digit, a sign, a point, or the first letter of [inf] or
    [nan]; and whitespace itself. *)
Definition starts_number (c : ascii) : bool :=
  PyStr.is_digit c || Ascii.eqb c "+" || Ascii.eqb c "-" || Ascii.eqb c "."
  || Ascii.eqb (to_lower c) "i" || Ascii.eqb (to_lower c) "n"
  || PyStr.isspace c.

(** The binary64 nearest to the decimal numeral [ip.fp]. *)
Definition decimal_value (ip fp : string) : float :=
  of_decimal false (Date.int_digits 0 (ip ++ fp))
    (- Z.of_nat (String.length fp)).

End PyFloat.

(** ** The parser: [parse_expense_message] *)

Local Open Scope result_scope.

(** The names bound by the [if]/[elif] chain; [price] is still text. *)
Record Fields : Type := mkFields {
  f_date : Date.date;
  f_item : string;
  f_price : string;
  f_store : string;
  f_category : string;
  f_quantity : string
}.

(** The [dict] that the parser returns. *)
Record Expense : Type := mkExpense {
  date : Date.date;
  item : string;
  price : PyFloat.float;
  store : string;
  category : string;
  quantity : string
}.

Definition invalid_format_text : string :=
  "Invalid message format. Use: Item, Price, Store, Category".

(** [a, b, c, d = values] *)
Definition unpack4 (values : list string)
  : result (string * string * string * string) :=
  match values with
  | [a; b; c; d] => Return (a, b, c, d)
  | _ =>
      if (List.length values <? 4)%nat
      then Raise (ValueError (NotEnoughValues 4 (List.length values)))
      else Raise (ValueError (TooManyValues 4))
  end.

(** [a, b, c, d, e = values] *)
Definition unpack5 (values : list string)
  : result (string * string * string * string * string) :=
  match values with
  | [a; b; c; d; e] => Return (a, b, c, d, e)
  | _ =>
      if (List.length values <? 5)%nat
      then Raise (ValueError (NotEnoughValues 5 (List.length values)))
      else Raise (ValueError (TooManyValues 5))
  end.

(** [values[0]] *)
Definition first_item (values : list string) : result string :=
  match values with
  | v :: _ => Return v
  | [] => Raise (OtherException (Literal "list index out of range"))
  end.

(** [[part.strip() for part in message.split(',')]] *)
Definition split_parts (message : string) : list string :=
  map PyStr.strip (PyStr.split PyStr.comma message).

(** Lines 38 to 65: the message is cut into parts and the parts are bound
    to the six names, or the message is refused. *)
Definition resolve_segments (today : Date.date) (message : string)
  : result Fields :=
  let parts := split_parts message in
  if (List.length parts =? 6)%nat then
    try_except_ValueError
      (part0 <- first_item parts ;;
       date <- Date.strptime part0 ;;
       '(item, price, store, category, quantity) <- unpack5 (skipn 1 parts) ;;
       Return (mkFields date item price store category quantity))
      ('(item, price, store, category, quantity) <- unpack5 parts ;;
       Return (mkFields today item price store category quantity))
  else if (List.length parts =? 5)%nat then
    try_except_ValueError
      (part0 <- first_item parts ;;
       date <- Date.strptime part0 ;;
       '(item, price, store, category) <- unpack4 (skipn 1 parts) ;;
       Return (mkFields date item price store category EmptyString))
      ('(item, price, store, category, quantity) <- unpack5 parts ;;
       Return (mkFields today item price store category quantity))
  else if (List.length parts =? 4)%nat then
    '(item, price, store, category) <- unpack4 parts ;;
    Return (mkFields today item price store category EmptyString)
  else
    Raise (ValueError (Literal invalid_format_text)).

(** Lines 67 to 74: the record is built, the price converted by [float]. *)
Definition build_expense (f : Fields) : result Expense :=
  price <- PyFloat.float_of_str (f_price f) ;;
  Return (mkExpense (f_date f) (f_item f) price (f_store f) (f_category f)
            (f_quantity f)).

Definition parse_expense_message (today : Date.date) (message : string)
  : result Expense :=
  fields <- resolve_segments today message ;;
  build_expense fields.

(** The shapes of message that the parser accepts, on the trimmed parts:
    four parts with a numeric second, five or six parts led by a date with
    a numeric third, five parts without a date with a numeric second. *)
Definition accepted_shape (parts : list string) : Prop :=
  (exists s0 s1 s2 s3,
      parts = [s0; s1; s2; s3]
      /\ succeeded (PyFloat.float_of_str s1) = true)
  \/ (exists s0 s1 s2 s3 s4,
         parts = [s0; s1; s2; s3; s4]
         /\ succeeded (Date.strptime s0) = true
         /\ succeeded (PyFloat.float_of_str s2) = true)
  \/ (exists s0 s1 s2 s3 s4,
         parts = [s0; s1; s2; s3; s4]
         /\ succeeded (Date.strptime s0) = false
         /\ succeeded (PyFloat.float_of_str s1) = true)
  \/ (exists s0 s1 s2 s3 s4 s5,
         parts = [s0; s1; s2; s3; s4; s5]
         /\ succeeded (Date.strptime s0) = true
         /\ succeeded (PyFloat.float_of_str s2) = true).

(** ** The handler: [handle_expense] *)

(** The properties of the page sent to the database. *)
Record Page : Type := mkPage {
  prop_Date : Date.date;
  prop_Item : string;
  prop_Price : PyFloat.float;
  prop_Store : string;
  prop_Category : string;
  prop_Quantity : string
}.

Inductive Reply : Type :=
| ExpenseAdded (expense : Expense)
| FormatGuidance (error : exc_text)
| UnexpectedError (error : exc_text).

(** What the handler can touch: the pages of the database, the calls made
    to [notion.pages.create], the error log and the replies sent. *)
Record World : Type := mkWorld {
  database : list Page;
  create_calls : list Page;
  error_log : list exc_text;
  replies : list Reply
}.

Definition action (A : Type) : Type := World -> result A * World.

Definition ret {A : Type} (a : A) : action A := fun w => (Return a, w).

Definition lift {A : Type} (r : result A) : action A := fun w => (r, w).

Definition bind_action {A B : Type} (m : action A) (k : A -> action B)
  : action B :=
  fun w =>
    match m w with
    | (Return a, w') => k a w'
    | (Raise e, w') => (Raise e, w')
    end.

Declare Scope action_scope.
Delimit Scope action_scope with action.
Notation "x <~ m ;; k" := (bind_action m (fun x => k))
  (at level 61, m at next level, right associativity) : action_scope.

(** [notion.pages.create(...)]: the call is made; the service answers by
    creating the page or by an exception, as [service] decides. *)
Definition pages_create (service : Page -> option exception) (page : Page)
  : action unit :=
  fun w =>
    let called :=
      mkWorld (database w) (create_calls w ++ [page]) (error_log w) (replies w) in
    match service page with
    | Some e => (Raise e, called)
    | None =>
        (Return tt,
         mkWorld (database w ++ [page]) (create_calls called)
           (error_log w) (replies w))
    end.

Definition reply_text (r : Reply) : action unit :=
  fun w =>
    (Return tt,
     mkWorld (database w) (create_calls w) (error_log w) (replies w ++ [r])).

Definition logger_error (t : exc_text) : action unit :=
  fun w =>
    (Return tt,
     mkWorld (database w) (create_calls w) (error_log w ++ [t]) (replies w)).

Definition page_of (expense : Expense) : Page :=
  mkPage (date expense) (item expense) (price expense) (store expense)
    (category expense) (quantity expense).

Local Open Scope action_scope.

(** The body of the [try] of [handle_expense]. *)
Definition handle_expense_body (today : Date.date)
    (service : Page -> option exception) (text : string) : action unit :=
  expense <~ lift (parse_expense_message today text) ;;
  _ <~ pages_create service (page_of expense) ;;
  reply_text (ExpenseAdded expense).

(** [handle_expense]: the body, then the two [except] clauses. *)
Definition handle_expense (today : Date.date)
    (service : Page -> option exception) (text : string) (w : World)
  : World :=
  match handle_expense_body today service text w with
  | (Return _, w') => w'
  | (Raise (ValueError t), w') => snd (reply_text (FormatGuidance t) w')
  | (Raise (OtherException t), w') =>
      snd ((_ <~ logger_error t ;; reply_text (UnexpectedError t)) w')
  end.

(** ** The request sent to the database *)

(** The values of the request: strings, numbers, lists and dictionaries
    with string keys, in the order the source writes them. *)
#[local] Unset Elimination Schemes.

Inductive json : Type :=
| JStr (s : string)
| JNum (x : PyFloat.float)
| JList (items : list json)
| JObj (members : list (string * json)).

#[local] Set Elimination Schemes.

Definition text_run (content : string) : json :=
  JObj [("type", JStr "text"); ("text", JObj [("content", JStr content)])].

(** The [properties] argument of [notion.pages.create], lines 98 to 143. *)
Definition properties_of (expense : Expense) : json :=
  JObj
    [("Date",
      JObj [("type", JStr "date");
            ("date", JObj [("start", JStr (Date.isoformat (date expense)))])]);
     ("Item",
      JObj [("type", JStr "title");
            ("title", JList [text_run (item expense)])]);
     ("Price",
      JObj [("type", JStr "number"); ("number", JNum (price expense))]);
     ("Store",
      JObj [("type", JStr "select");
            ("select", JObj [("name", JStr (store expense))])]);
     ("Category",
      JObj [("type", JStr "select");
            ("select", JObj [("name", JStr (category expense))])]);
     ("Quantity",
      JObj [("type", JStr "rich_text");
            ("rich_text", JList [text_run (quantity expense)])])].

(** ** Start-up: the three environment variables *)

(** The truth value of what [os.getenv] returns: [None] and the empty
    string are false. *)
Definition truthy (v : option string) : bool :=
  match v with
  | Some (String _ _) => true
  | _ => false
  end.

Definition missing_environment_text : string :=
  "Missing required environment variables. Check your .env file.".

(** Lines 21 to 27: the module refuses to load unless the three variables
    are set. *)
Definition check_environment
    (telegram_bot_token notion_integration_token notion_database_id
       : option string)
  : result unit :=
  if negb (forallb truthy
             [telegram_bot_token; notion_integration_token;
              notion_database_id])
  then Raise (ValueError (Literal missing_environment_text))
  else Return tt.

(** A variable is set: it is there and not empty. *)
Definition is_set (v : option string) : Prop :=
  exists s, v = Some s /\ s <> EmptyString.

(** A processing date and a world to run the examples in. *)
Definition sample_today : Date.date := Date.mkDate 2026 11 3.

Definition empty_world : World := mkWorld [] [] [] [].

(** A service that creates every page. *)
Definition service_ok (_ : Page) : option exception := None.

(** The padded form of a message: every segment between its whitespace. *)
Definition pad_segment (t : string * string * string) : string :=
  let '(lpad, core, rpad) := t in (lpad ++ core ++ rpad)%string.

Definition core_segment (t : string * string * string) : string :=
  let '(_, core, _) := t in core.

(** Whitespace on both sides and no comma inside. *)
Definition padding_ok (t : string * string * string) : bool :=
  let '(lpad, core, rpad) := t in
  PyStr.all_chars PyStr.isspace lpad
  && PyStr.all_chars PyStr.isspace rpad
  && negb (PyStr.has_char PyStr.comma core).

(** * Properties *)

(** ** The built-ins on sample inputs *)

Local Open Scope Z_scope.

Example strptime_iso :
  Date.strptime "2024-01-15" = Return (Date.mkDate 2024 1 15).
Proof. reflexivity. Qed.
Example strptime_short :
  Date.strptime "2024-1- 5" = Return (Date.mkDate 2024 1 5).
Proof. reflexivity. Qed.
Example strptime_feb29 :
  Date.strptime "2023-02-29" = Raise (ValueError DateOutOfRange).
Proof. reflexivity. Qed.
Example strptime_rest :
  Date.strptime "2023-02-281" = Raise (ValueError (UnconvertedData "1")).
Proof. reflexivity. Qed.
Example strptime_milk :
  Date.strptime "Milk" = Raise (ValueError (TimeDataMismatch "Milk")).
Proof. reflexivity. Qed.
Example float_3_50 :
  PyFloat.float_of_str "3.50"
  = Return (S754_finite false 7881299347898368 (-51)).
Proof. vm_compute. reflexivity. Qed.
Example float_0_1 :
  PyFloat.float_of_str "0.1"
  = Return (S754_finite false 7205759403792794 (-56)).
Proof. vm_compute. reflexivity. Qed.
Example float_1e23 :
  PyFloat.float_of_str "1e23"
  = Return (S754_finite false 5960464477539062 24).
Proof. vm_compute. reflexivity. Qed.
Example float_tiny :
  PyFloat.float_of_str "1e-400"
  = Return (S754_zero false).
Proof. vm_compute. reflexivity. Qed.
Example float_sub :
  PyFloat.float_of_str "5e-324"
  = Return (S754_finite false 1 (-1074)).
Proof. vm_compute. reflexivity. Qed.
Example float_half_sub :
  PyFloat.float_of_str "2.4703282292062327e-324"
  = Return (S754_zero false).
Proof. vm_compute. reflexivity. Qed.
Example float_half_sub_up :
  PyFloat.float_of_str "2.4703282292062328e-324"
  = Return (S754_finite false 1 (-1074)).
Proof. vm_compute. reflexivity. Qed.
Example float_huge :
  PyFloat.float_of_str "1e400"
  = Return (S754_infinity false).
Proof. vm_compute. reflexivity. Qed.
Example float_max :
  PyFloat.float_of_str "1.7976931348623157e308"
  = Return (S754_finite false 9007199254740991 971).
Proof. vm_compute. reflexivity. Qed.
Example float_neg :
  PyFloat.float_of_str "-5"
  = Return (S754_finite true 5629499534213120 (-50)).
Proof. vm_compute. reflexivity. Qed.
Example float_us :
  PyFloat.float_of_str "1_000.5" = PyFloat.float_of_str "1000.5".
Proof. vm_compute. reflexivity. Qed.
Example float_bad :
  map (fun s => succeeded (PyFloat.float_of_str s))
    ["abc"; "1e"; "."; "1_"; "_1"; "1__0"; "0x10"; "infinit"; "1 2"; "";
     "+-1"; "1e+"; "1._5"; "$3"]
  = repeat false 14.
Proof. vm_compute. reflexivity. Qed.
Example float_good :
  map (fun s => succeeded (PyFloat.float_of_str s))
    ["1."; ".5"; "-.5e-3"; "InFiNiTy"; "-nan"; "+inf"; "1e5"; "00012"; "1E+05";
     "-0"; "1_0e1_0"]
  = repeat true 11.
Proof. vm_compute. reflexivity. Qed.

Local Close Scope Z_scope.

(** ** Strings *)

Section Strip.
Variable sp : ascii -> bool.

Lemma lstrip_all_space (s : string) :
  PyStr.all_chars sp s = true -> PyStr.lstrip_with sp s = EmptyString.
Proof.
  induction s as [|c s IH]; simpl; [reflexivity|].
  intros H. apply andb_prop in H as [Hc Hs]. rewrite Hc. auto.
Qed.

Lemma rstrip_all_space (s : string) :
  PyStr.all_chars sp s = true -> PyStr.rstrip_with sp s = EmptyString.
Proof.
  induction s as [|c s IH]; simpl; [reflexivity|].
  intros H. apply andb_prop in H as [Hc Hs]. rewrite (IH Hs), Hc. reflexivity.
Qed.

Lemma lstrip_app_left (l s : string) :
  PyStr.all_chars sp l = true ->
  PyStr.lstrip_with sp (l ++ s) = PyStr.lstrip_with sp s.
Proof.
  induction l as [|c l IH]; simpl; [reflexivity|].
  intros H. apply andb_prop in H as [Hc Hl]. rewrite Hc. auto.
Qed.

Lemma rstrip_app_right (s r : string) :
  PyStr.all_chars sp r = true ->
  PyStr.rstrip_with sp (s ++ r) = PyStr.rstrip_with sp s.
Proof.
  intros Hr. induction s as [|c s IH]; simpl.
  - now apply rstrip_all_space.
  - now rewrite IH.
Qed.

Lemma strip_app_right (s r : string) :
  PyStr.all_chars sp r = true ->
  PyStr.rstrip_with sp (PyStr.lstrip_with sp (s ++ r))
  = PyStr.rstrip_with sp (PyStr.lstrip_with sp s).
Proof.
  intros Hr. induction s as [|c s IH]; simpl.
  - now rewrite (lstrip_all_space r Hr).
  - destruct (sp c); [exact IH|].
    change (String c (s ++ r)) with (String c s ++ r)%string.
    now apply rstrip_app_right.
Qed.
End Strip.

Lemma strip_pad (l s r : string) :
  PyStr.all_chars PyStr.isspace l = true ->
  PyStr.all_chars PyStr.isspace r = true ->
  PyStr.strip (l ++ s ++ r) = PyStr.strip s.
Proof.
  intros Hl Hr. unfold PyStr.strip.
  rewrite (lstrip_app_left _ l (s ++ r) Hl).
  now apply strip_app_right.
Qed.

Lemma has_char_app (x : ascii) (s t : string) :
  PyStr.has_char x (s ++ t) = PyStr.has_char x s || PyStr.has_char x t.
Proof.
  induction s as [|c s IH]; simpl; [reflexivity|].
  now rewrite IH, orb_assoc.
Qed.

Lemma space_is_not_comma (c : ascii) :
  PyStr.isspace c = true -> Ascii.eqb c PyStr.comma = false.
Proof.
  intros H. destruct (Ascii.eqb_spec c PyStr.comma) as [->|]; [|reflexivity].
  discriminate H.
Qed.

Lemma whitespace_has_no_comma (s : string) :
  PyStr.all_chars PyStr.isspace s = true ->
  PyStr.has_char PyStr.comma s = false.
Proof.
  induction s as [|c s IH]; simpl; [reflexivity|].
  intros H. apply andb_prop in H as [Hc Hs].
  now rewrite (space_is_not_comma c Hc), (IH Hs).
Qed.

Section Split.
Variable sep : ascii.

Lemma split_not_nil (s : string) : PyStr.split sep s <> [].
Proof.
  induction s as [|c s IH]; simpl; [discriminate|].
  destruct (Ascii.eqb c sep); [discriminate|].
  destruct (PyStr.split sep s); [contradiction|discriminate].
Qed.

Lemma split_without_sep (s : string) :
  PyStr.has_char sep s = false -> PyStr.split sep s = [s].
Proof.
  induction s as [|c s IH]; simpl; [reflexivity|].
  intros H. apply orb_false_elim in H as [Hc Hs].
  now rewrite Hc, (IH Hs).
Qed.

Lemma split_app_sep (s t : string) :
  PyStr.has_char sep s = false ->
  PyStr.split sep (s ++ String sep t) = s :: PyStr.split sep t.
Proof.
  induction s as [|c s IH]; simpl.
  - intros _. now rewrite Ascii.eqb_refl.
  - intros H. apply orb_false_elim in H as [Hc Hs].
    now rewrite Hc, (IH Hs).
Qed.

Lemma split_join (pieces : list string) :
  pieces <> [] ->
  Forall (fun p => PyStr.has_char sep p = false) pieces ->
  PyStr.split sep (PyStr.join sep pieces) = pieces.
Proof.
  induction pieces as [|p rest IH]; [contradiction|].
  intros _ H. inversion H as [|? ? Hp Hrest]; subst.
  destruct rest as [|q rest].
  - simpl. now apply split_without_sep.
  - change (PyStr.join sep (p :: q :: rest))
      with (p ++ String sep (PyStr.join sep (q :: rest)))%string.
    rewrite (split_app_sep _ _ Hp). f_equal.
    apply IH; [discriminate|assumption].
Qed.
End Split.

(** ** Built-ins raise [ValueError] only *)

Lemma strptime_raises_ValueError (s : string) (e : exception) :
  Date.strptime s = Raise e -> exists t, e = ValueError t.
Proof.
  unfold Date.strptime.
  destruct (Regex.re_match Date.format_regex s) as [[rest found]|].
  - destruct (negb (rest =? "")%string).
    + intros [= <-]. eauto.
    + destruct Date.valid_date; [discriminate|]. intros [= <-]. eauto.
  - intros [= <-]. eauto.
Qed.

Lemma strptime_failure (s : string) :
  succeeded (Date.strptime s) = false ->
  exists t, Date.strptime s = Raise (ValueError t).
Proof.
  destruct (Date.strptime s) as [d|e] eqn:E; [discriminate|].
  intros _. destruct (strptime_raises_ValueError s e E) as [t ->]. eauto.
Qed.

Lemma float_raises (s : string) (e : exception) :
  PyFloat.float_of_str s = Raise e -> e = ValueError (FloatConversion s).
Proof.
  unfold PyFloat.float_of_str.
  destruct (if PyStr.has_char "_" _ then _ else _); [discriminate|].
  now intros [= <-].
Qed.

Lemma float_failure (s : string) :
  succeeded (PyFloat.float_of_str s) = false ->
  PyFloat.float_of_str s = Raise (ValueError (FloatConversion s)).
Proof.
  destruct (PyFloat.float_of_str s) as [x|e] eqn:E; [discriminate|].
  intros _. now rewrite (float_raises s e E).
Qed.

(** ** The parser reads the message through its trimmed parts only *)

Lemma resolve_by_parts (today : Date.date) (m1 m2 : string) :
  split_parts m1 = split_parts m2 ->
  resolve_segments today m1 = resolve_segments today m2.
Proof. intros H. unfold resolve_segments. now rewrite H. Qed.

Lemma parse_by_parts (today : Date.date) (m1 m2 : string) :
  split_parts m1 = split_parts m2 ->
  parse_expense_message today m1 = parse_expense_message today m2.
Proof.
  intros H. unfold parse_expense_message.
  now rewrite (resolve_by_parts today m1 m2 H).
Qed.

Lemma split_parts_length (message : string) :
  List.length (split_parts message)
  = List.length (PyStr.split PyStr.comma message).
Proof. unfold split_parts. apply length_map. Qed.

(** ** Segment resolution, case by case *)

Lemma resolve_four (today : Date.date) (message s0 s1 s2 s3 : string) :
  split_parts message = [s0; s1; s2; s3] ->
  resolve_segments today message
  = Return (mkFields today s0 s1 s2 s3 EmptyString).
Proof. intros H. unfold resolve_segments. now rewrite H. Qed.

Lemma resolve_five_dated (today d : Date.date)
    (message s0 s1 s2 s3 s4 : string) :
  split_parts message = [s0; s1; s2; s3; s4] ->
  Date.strptime s0 = Return d ->
  resolve_segments today message
  = Return (mkFields d s1 s2 s3 s4 EmptyString).
Proof.
  intros H Hd. unfold resolve_segments. rewrite H. simpl. now rewrite Hd.
Qed.

Lemma resolve_five_undated (today : Date.date)
    (message s0 s1 s2 s3 s4 : string) :
  split_parts message = [s0; s1; s2; s3; s4] ->
  succeeded (Date.strptime s0) = false ->
  resolve_segments today message
  = Return (mkFields today s0 s1 s2 s3 s4).
Proof.
  intros H Hd. destruct (strptime_failure s0 Hd) as [t Ht].
  unfold resolve_segments. rewrite H. simpl. now rewrite Ht.
Qed.

Lemma resolve_six_dated (today d : Date.date)
    (message s0 s1 s2 s3 s4 s5 : string) :
  split_parts message = [s0; s1; s2; s3; s4; s5] ->
  Date.strptime s0 = Return d ->
  resolve_segments today message = Return (mkFields d s1 s2 s3 s4 s5).
Proof.
  intros H Hd. unfold resolve_segments. rewrite H. simpl. now rewrite Hd.
Qed.

Lemma resolve_six_undated (today : Date.date)
    (message s0 s1 s2 s3 s4 s5 : string) :
  split_parts message = [s0; s1; s2; s3; s4; s5] ->
  succeeded (Date.strptime s0) = false ->
  resolve_segments today message = Raise (ValueError (TooManyValues 5)).
Proof.
  intros H Hd. destruct (strptime_failure s0 Hd) as [t Ht].
  unfold resolve_segments. rewrite H. simpl. now rewrite Ht.
Qed.

Lemma resolve_other (today : Date.date) (message : string) :
  let n := List.length (split_parts message) in
  n <> 4%nat -> n <> 5%nat -> n <> 6%nat ->
  resolve_segments today message
  = Raise (ValueError (Literal invalid_format_text)).
Proof.
  intros n H4 H5 H6. unfold resolve_segments. fold n.
  destruct (Nat.eqb_spec n 6); [contradiction|].
  destruct (Nat.eqb_spec n 5); [contradiction|].
  destruct (Nat.eqb_spec n 4); [contradiction|].
  reflexivity.
Qed.

(** Every exception of segment resolution is a [ValueError]. *)
Lemma resolve_raises_ValueError (today : Date.date) (message : string)
    (e : exception) :
  resolve_segments today message = Raise e -> exists t, e = ValueError t.
Proof.
  unfold resolve_segments.
  destruct (split_parts message)
    as [|s0 [|s1 [|s2 [|s3 [|s4 [|s5 [|s6 rest]]]]]]]; simpl;
    try (intros [= <-]; eauto; fail).
  - destruct (Date.strptime s0) as [d|[t|t]] eqn:E; simpl.
    + discriminate.
    + discriminate.
    + destruct (strptime_raises_ValueError s0 _ E); discriminate.
  - destruct (Date.strptime s0) as [d|[t|t]] eqn:E; simpl.
    + discriminate.
    + intros [= <-]; eauto.
    + destruct (strptime_raises_ValueError s0 _ E); discriminate.
Qed.

Lemma parse_raises_ValueError (today : Date.date) (message : string)
    (e : exception) :
  parse_expense_message today message = Raise e -> exists t, e = ValueError t.
Proof.
  unfold parse_expense_message.
  destruct (resolve_segments today message) as [f|e'] eqn:E; simpl.
  - unfold build_expense.
    destruct (PyFloat.float_of_str (f_price f)) as [p|e'] eqn:F; simpl;
      [discriminate|].
    intros [= <-]. rewrite (float_raises _ _ F). eauto.
  - intros [= <-]. eapply resolve_raises_ValueError; eauto.
Qed.

(** A record comes from resolved fields whose price text [float] reads. *)
Lemma parse_success (today : Date.date) (message : string) (r : Expense) :
  parse_expense_message today message = Return r ->
  exists f,
    resolve_segments today message = Return f
    /\ PyFloat.float_of_str (f_price f) = Return (price r)
    /\ date r = f_date f /\ item r = f_item f /\ store r = f_store f
    /\ category r = f_category f /\ quantity r = f_quantity f.
Proof.
  unfold parse_expense_message.
  destruct (resolve_segments today message) as [f|e]; simpl; [|discriminate].
  unfold build_expense.
  destruct (PyFloat.float_of_str (f_price f)) as [p|e] eqn:F; simpl;
    [|discriminate].
  intros [= <-]. exists f. simpl. rewrite F. repeat split; reflexivity.
Qed.

(** ** The handler *)

Lemma handle_parse_failure (today : Date.date)
    (service : Page -> option exception) (text : string) (w : World)
    (t : exc_text) :
  parse_expense_message today text = Raise (ValueError t) ->
  handle_expense today service text w
  = mkWorld (database w) (create_calls w) (error_log w)
      (replies w ++ [FormatGuidance t]).
Proof.
  intros H. unfold handle_expense, handle_expense_body, bind_action, lift.
  rewrite H. reflexivity.
Qed.

(** * The claims *)

(** ** Five segments *)

(** C1, as stated, fails: five segments whose first is no date and whose
    price segment is not a number give no record, [float] raises. *)
Lemma C1_counterexample :
  split_parts "Milk, cheap, Costco, Groceries, 2 gallons"
  = ["Milk"; "cheap"; "Costco"; "Groceries"; "2 gallons"]
  /\ succeeded (Date.strptime "Milk") = false
  /\ parse_expense_message sample_today
       "Milk, cheap, Costco, Groceries, 2 gallons"
     = Raise (ValueError (FloatConversion "cheap")).
Proof. vm_compute. repeat split; reflexivity. Qed.

(** C1, amended: for a message of exactly five trimmed segments whose
    resolved price segment [float] reads as [p]: when [strptime] accepts
    segment 0 as the date [d], the record is [d], segments 1 to 4 as item,
    price, store and category, and an empty quantity; when [strptime]
    refuses segment 0, the record is the processing date and the five
    segments as item, price, store, category and quantity. *)
Theorem C1_five_segments (today : Date.date)
    (message s0 s1 s2 s3 s4 : string) (p : PyFloat.float) :
  split_parts message = [s0; s1; s2; s3; s4] ->
  (forall d, Date.strptime s0 = Return d ->
     PyFloat.float_of_str s2 = Return p ->
     parse_expense_message today message
     = Return (mkExpense d s1 p s3 s4 EmptyString))
  /\ (succeeded (Date.strptime s0) = false ->
      PyFloat.float_of_str s1 = Return p ->
      parse_expense_message today message
      = Return (mkExpense today s0 p s2 s3 s4)).
Proof.
  intros H. split.
  - intros d Hd Hp. unfold parse_expense_message.
    rewrite (resolve_five_dated today d message s0 s1 s2 s3 s4 H Hd).
    simpl. unfold build_expense. simpl. now rewrite Hp.
  - intros Hd Hp. unfold parse_expense_message.
    rewrite (resolve_five_undated today message s0 s1 s2 s3 s4 H Hd).
    simpl. unfold build_expense. simpl. now rewrite Hp.
Qed.

Lemma C1_five_segments_witness :
  (split_parts "2024-01-15, Bread, 2.25, Kroger, Groceries"
   = ["2024-01-15"; "Bread"; "2.25"; "Kroger"; "Groceries"]
   /\ Date.strptime "2024-01-15" = Return (Date.mkDate 2024 1 15)
   /\ PyFloat.float_of_str "2.25"
      = Return (S754_finite false 5066549580791808 (-51))
   /\ parse_expense_message sample_today
        "2024-01-15, Bread, 2.25, Kroger, Groceries"
      = Return (mkExpense (Date.mkDate 2024 1 15) "Bread"
                  (S754_finite false 5066549580791808 (-51))
                  "Kroger" "Groceries" ""))
  /\ (split_parts "Milk, 2.25, Costco, Groceries, 2 gallons"
      = ["Milk"; "2.25"; "Costco"; "Groceries"; "2 gallons"]
      /\ succeeded (Date.strptime "Milk") = false
      /\ parse_expense_message sample_today
           "Milk, 2.25, Costco, Groceries, 2 gallons"
         = Return (mkExpense sample_today "Milk"
                     (S754_finite false 5066549580791808 (-51))
                     "Costco" "Groceries" "2 gallons")).
Proof.
  split.
  - split; [reflexivity|]. split; [reflexivity|].
    split; [vm_compute; reflexivity|].
    apply (proj1 (C1_five_segments sample_today
                    "2024-01-15, Bread, 2.25, Kroger, Groceries"
                    "2024-01-15" "Bread" "2.25" "Kroger" "Groceries"
                    (S754_finite false 5066549580791808 (-51))
                    eq_refl)).
    + reflexivity.
    + vm_compute; reflexivity.
  - split; [reflexivity|]. split; [reflexivity|].
    apply (proj2 (C1_five_segments sample_today
                    "Milk, 2.25, Costco, Groceries, 2 gallons"
                    "Milk" "2.25" "Costco" "Groceries" "2 gallons"
                    (S754_finite false 5066549580791808 (-51))
                    eq_refl)).
    + reflexivity.
    + vm_compute; reflexivity.
Defined.

(** ** Six segments *)

(** C2: on six trimmed segments whose first [strptime] refuses, the
    handler of the failed probe unpacks six parts into five names, which
    raises: the parser returns no record. *)
Theorem C2_six_segments_undated_raises (today : Date.date)
    (message s0 s1 s2 s3 s4 s5 : string) :
  split_parts message = [s0; s1; s2; s3; s4; s5] ->
  succeeded (Date.strptime s0) = false ->
  parse_expense_message today message = Raise (ValueError (TooManyValues 5)).
Proof.
  intros H Hd. unfold parse_expense_message.
  now rewrite (resolve_six_undated today message s0 s1 s2 s3 s4 s5 H Hd).
Qed.

Lemma C2_six_segments_undated_raises_witness :
  split_parts "Milk, 2.25, Costco, Groceries, 2 gallons, extra"
  = ["Milk"; "2.25"; "Costco"; "Groceries"; "2 gallons"; "extra"]
  /\ succeeded (Date.strptime "Milk") = false
  /\ parse_expense_message sample_today
       "Milk, 2.25, Costco, Groceries, 2 gallons, extra"
     = Raise (ValueError (TooManyValues 5)).
Proof.
  split; [reflexivity|]. split; [reflexivity|].
  apply (C2_six_segments_undated_raises sample_today
           "Milk, 2.25, Costco, Groceries, 2 gallons, extra"
           "Milk" "2.25" "Costco" "Groceries" "2 gallons" "extra");
    reflexivity.
Defined.

(** ** Four segments *)

(** C3: a message of exactly four trimmed segments whose price segment
    [float] reads as [p] gives the record with item, price, store and
    category in that order, an empty quantity and the processing date. *)
Theorem C3_four_segments (today : Date.date)
    (message s0 s1 s2 s3 : string) (p : PyFloat.float) :
  split_parts message = [s0; s1; s2; s3] ->
  PyFloat.float_of_str s1 = Return p ->
  parse_expense_message today message
  = Return (mkExpense today s0 p s2 s3 EmptyString).
Proof.
  intros H Hp. unfold parse_expense_message.
  rewrite (resolve_four today message s0 s1 s2 s3 H).
  simpl. unfold build_expense. simpl. now rewrite Hp.
Qed.

Lemma C3_four_segments_witness :
  split_parts "Eggs, 3.50, Walmart, Groceries"
  = ["Eggs"; "3.50"; "Walmart"; "Groceries"]
  /\ PyFloat.float_of_str "3.50"
     = Return (S754_finite false 7881299347898368 (-51))
  /\ parse_expense_message sample_today "Eggs, 3.50, Walmart, Groceries"
     = Return (mkExpense sample_today "Eggs"
                 (S754_finite false 7881299347898368 (-51))
                 "Walmart" "Groceries" "").
Proof.
  split; [reflexivity|]. split; [vm_compute; reflexivity|].
  apply (C3_four_segments sample_today "Eggs, 3.50, Walmart, Groceries"
           "Eggs" "3.50" "Walmart" "Groceries").
  - reflexivity.
  - vm_compute; reflexivity.
Defined.

(** ** Errors *)

(** C4: when the segments resolve and [float] refuses the price segment,
    the parser raises the conversion error of [float], a [ValueError], and
    the handler answers with the format guidance, calls nothing and logs
    nothing. *)
Theorem C4_price_not_numeric (today : Date.date) (message : string)
    (f : Fields) :
  resolve_segments today message = Return f ->
  succeeded (PyFloat.float_of_str (f_price f)) = false ->
  parse_expense_message today message
  = Raise (ValueError (FloatConversion (f_price f)))
  /\ forall service w,
       handle_expense today service message w
       = mkWorld (database w) (create_calls w) (error_log w)
           (replies w ++ [FormatGuidance (FloatConversion (f_price f))]).
Proof.
  intros Hf Hp.
  assert (Hparse : parse_expense_message today message
                   = Raise (ValueError (FloatConversion (f_price f)))).
  { unfold parse_expense_message. rewrite Hf. simpl. unfold build_expense.
    now rewrite (float_failure _ Hp). }
  split; [exact Hparse|].
  intros service w. now apply handle_parse_failure.
Qed.

Lemma C4_price_not_numeric_witness :
  resolve_segments sample_today "Eggs, notanumber, Walmart, Groceries"
  = Return (mkFields sample_today "Eggs" "notanumber" "Walmart" "Groceries" "")
  /\ succeeded (PyFloat.float_of_str "notanumber") = false
  /\ parse_expense_message sample_today "Eggs, notanumber, Walmart, Groceries"
     = Raise (ValueError (FloatConversion "notanumber"))
  /\ handle_expense sample_today service_ok
       "Eggs, notanumber, Walmart, Groceries" empty_world
     = mkWorld [] [] [] [FormatGuidance (FloatConversion "notanumber")].
Proof.
  split; [reflexivity|]. split; [reflexivity|].
  pose proof (C4_price_not_numeric sample_today
                "Eggs, notanumber, Walmart, Groceries"
                (mkFields sample_today "Eggs" "notanumber" "Walmart"
                   "Groceries" "")
                eq_refl eq_refl) as [Hparse Hhandle].
  split; [exact Hparse|].
  exact (Hhandle service_ok empty_world).
Defined.

(** C5: a message whose number of comma-separated segments is not 4, 5 or
    6 is refused with the [ValueError] whose text starts with
    "Invalid message format"; no record is returned. *)
Theorem C5_other_counts_invalid_format (today : Date.date) (message : string) :
  let n := List.length (PyStr.split PyStr.comma message) in
  n <> 4%nat -> n <> 5%nat -> n <> 6%nat ->
  parse_expense_message today message
  = Raise (ValueError (Literal invalid_format_text))
  /\ String.prefix "Invalid message format" invalid_format_text = true.
Proof.
  intros n H4 H5 H6. split; [|reflexivity].
  unfold parse_expense_message.
  rewrite resolve_other; [reflexivity| | |];
    rewrite split_parts_length; assumption.
Qed.

Lemma C5_other_counts_invalid_format_witness :
  List.length (PyStr.split PyStr.comma "A, B, C") = 3%nat
  /\ parse_expense_message sample_today "A, B, C"
     = Raise (ValueError (Literal invalid_format_text)).
Proof.
  split; [reflexivity|].
  apply (C5_other_counts_invalid_format sample_today "A, B, C");
    simpl; discriminate.
Defined.

(** C6: when the parser raises, the handler makes no call to
    [notion.pages.create] and the database keeps its pages. *)
Theorem C6_no_create_on_parse_failure (today : Date.date)
    (service : Page -> option exception) (text : string) (w : World)
    (e : exception) :
  parse_expense_message today text = Raise e ->
  create_calls (handle_expense today service text w) = create_calls w
  /\ database (handle_expense today service text w) = database w.
Proof.
  intros H. destruct (parse_raises_ValueError today text e H) as [t ->].
  rewrite (handle_parse_failure today service text w t H). split; reflexivity.
Qed.

Lemma C6_no_create_on_parse_failure_witness :
  parse_expense_message sample_today "A, B, C"
  = Raise (ValueError (Literal invalid_format_text))
  /\ create_calls (handle_expense sample_today service_ok "A, B, C" empty_world)
     = []
  /\ database (handle_expense sample_today service_ok "A, B, C" empty_world)
     = [].
Proof.
  split; [reflexivity|].
  exact (C6_no_create_on_parse_failure sample_today service_ok "A, B, C"
           empty_world _ eq_refl).
Defined.

(** ** What a record holds *)

(** C7, as stated, fails: a negative price is accepted, and so is zero. *)
Lemma C7_counterexample :
  parse_expense_message sample_today "Refund, -5, Walmart, Groceries"
  = Return (mkExpense sample_today "Refund"
              (S754_finite true 5629499534213120 (-50))
              "Walmart" "Groceries" "")
  /\ PyFloat.is_positive (S754_finite true 5629499534213120 (-50)) = false
  /\ parse_expense_message sample_today "Bag, 0, Walmart, Groceries"
     = Return (mkExpense sample_today "Bag" (S754_zero false)
                 "Walmart" "Groceries" "")
  /\ PyFloat.is_positive (S754_zero false) = false.
Proof. vm_compute. repeat split; reflexivity. Qed.

(** C7, amended: the price of a record that the parser returns is the
    value [float] gives for the resolved price segment, whatever its
    sign. *)
Theorem C7_price_is_float_of_segment (today : Date.date) (message : string)
    (r : Expense) :
  parse_expense_message today message = Return r ->
  exists f,
    resolve_segments today message = Return f
    /\ PyFloat.float_of_str (f_price f) = Return (price r).
Proof.
  intros H. destruct (parse_success today message r H) as (f & Hf & Hp & _).
  exists f. split; assumption.
Qed.

Lemma C7_price_is_float_of_segment_witness :
  parse_expense_message sample_today "Eggs, 3.50, Walmart, Groceries"
  = Return (mkExpense sample_today "Eggs"
              (S754_finite false 7881299347898368 (-51))
              "Walmart" "Groceries" "")
  /\ exists f,
       resolve_segments sample_today "Eggs, 3.50, Walmart, Groceries"
       = Return f
       /\ PyFloat.float_of_str (f_price f)
          = Return (S754_finite false 7881299347898368 (-51)).
Proof.
  assert (H : parse_expense_message sample_today
                "Eggs, 3.50, Walmart, Groceries"
              = Return (mkExpense sample_today "Eggs"
                          (S754_finite false 7881299347898368 (-51))
                          "Walmart" "Groceries" ""))
    by (vm_compute; reflexivity).
  split; [exact H|].
  exact (C7_price_is_float_of_segment sample_today
           "Eggs, 3.50, Walmart, Groceries" _ H).
Defined.

(** C8, as stated, fails: an empty item segment is accepted. *)
Lemma C8_counterexample :
  parse_expense_message sample_today ", 3.50, Walmart, Groceries"
  = Return (mkExpense sample_today ""
              (S754_finite false 7881299347898368 (-51))
              "Walmart" "Groceries" "")
  /\ String.length "" = 0%nat.
Proof. vm_compute. split; reflexivity. Qed.

Lemma resolve_item (today : Date.date) (message : string) (f : Fields) :
  resolve_segments today message = Return f ->
  let parts := split_parts message in
  (f_item f = nth 0 parts EmptyString /\ f_date f = today)
  \/ (f_item f = nth 1 parts EmptyString
      /\ Date.strptime (nth 0 parts EmptyString) = Return (f_date f)).
Proof.
  unfold resolve_segments.
  destruct (split_parts message)
    as [|s0 [|s1 [|s2 [|s3 [|s4 [|s5 [|s6 rest]]]]]]]; simpl;
    try discriminate.
  - intros [= <-]. left. split; reflexivity.
  - destruct (Date.strptime s0) as [d|[t|t]]; simpl.
    + intros [= <-]. right. split; reflexivity.
    + intros [= <-]. left. split; reflexivity.
    + discriminate.
  - destruct (Date.strptime s0) as [d|[t|t]]; simpl.
    + intros [= <-]. right. split; reflexivity.
    + discriminate.
    + discriminate.
Qed.

(** C8, amended: the item of a record that the parser returns is a
    trimmed segment of the message, empty when that segment is: segment 0
    with the processing date, or segment 1 after a segment 0 that
    [strptime] accepts as the date of the record. *)
Theorem C8_item_is_trimmed_segment (today : Date.date) (message : string)
    (r : Expense) :
  parse_expense_message today message = Return r ->
  let parts := split_parts message in
  (item r = nth 0 parts EmptyString /\ date r = today)
  \/ (item r = nth 1 parts EmptyString
      /\ Date.strptime (nth 0 parts EmptyString) = Return (date r)).
Proof.
  intros H.
  destruct (parse_success today message r H)
    as (f & Hf & _ & Hd & Hi & _).
  rewrite Hd, Hi. exact (resolve_item today message f Hf).
Qed.

Lemma C8_item_is_trimmed_segment_witness :
  parse_expense_message sample_today ", 3.50, Walmart, Groceries"
  = Return (mkExpense sample_today ""
              (S754_finite false 7881299347898368 (-51))
              "Walmart" "Groceries" "")
  /\ (("" = nth 0 (split_parts ", 3.50, Walmart, Groceries") ""
       /\ sample_today = sample_today)
      \/ ("" = nth 1 (split_parts ", 3.50, Walmart, Groceries") ""
          /\ Date.strptime
               (nth 0 (split_parts ", 3.50, Walmart, Groceries") "")
             = Return sample_today)).
Proof.
  assert (H : parse_expense_message sample_today ", 3.50, Walmart, Groceries"
              = Return (mkExpense sample_today ""
                          (S754_finite false 7881299347898368 (-51))
                          "Walmart" "Groceries" ""))
    by (vm_compute; reflexivity).
  split; [exact H|].
  exact (C8_item_is_trimmed_segment sample_today
           ", 3.50, Walmart, Groceries" _ H).
Defined.

(** ** Whitespace around segments *)

Lemma padded_has_no_comma (t : string * string * string) :
  padding_ok t = true ->
  PyStr.has_char PyStr.comma (pad_segment t) = false
  /\ PyStr.has_char PyStr.comma (core_segment t) = false
  /\ PyStr.strip (pad_segment t) = PyStr.strip (core_segment t).
Proof.
  destruct t as [[l s] r]. unfold padding_ok, pad_segment, core_segment.
  intros H. apply andb_prop in H as [H Hs]. apply andb_prop in H as [Hl Hr].
  apply negb_true_iff in Hs.
  repeat split.
  - rewrite !has_char_app, Hs.
    now rewrite (whitespace_has_no_comma l Hl), (whitespace_has_no_comma r Hr).
  - exact Hs.
  - now apply strip_pad.
Qed.

Lemma padded_parts (segs : list (string * string * string)) :
  forallb padding_ok segs = true ->
  split_parts (PyStr.join PyStr.comma (map pad_segment segs))
  = split_parts (PyStr.join PyStr.comma (map core_segment segs)).
Proof.
  intros H. rewrite forallb_forall in H.
  destruct segs as [|t segs]; [reflexivity|].
  unfold split_parts.
  rewrite !split_join.
  - rewrite !map_map. apply map_ext_in. intros u Hu.
    now destruct (padded_has_no_comma u (H u Hu)) as (_ & _ & ->).
  - discriminate.
  - apply Forall_forall. intros p Hp. apply in_map_iff in Hp as (u & <- & Hu).
    now destruct (padded_has_no_comma u (H u Hu)) as (_ & -> & _).
  - discriminate.
  - apply Forall_forall. intros p Hp. apply in_map_iff in Hp as (u & <- & Hu).
    now destruct (padded_has_no_comma u (H u Hu)) as (-> & _ & _).
Qed.

(** C9: whitespace on either side of the comma-separated segments of a
    message does not change the result of the parser, a record or an
    exception; in particular for the message of the eggs. *)
Theorem C9_whitespace_insensitive :
  (forall (today : Date.date) (segs : list (string * string * string)),
     forallb padding_ok segs = true ->
     parse_expense_message today
       (PyStr.join PyStr.comma (map pad_segment segs))
     = parse_expense_message today
         (PyStr.join PyStr.comma (map core_segment segs)))
  /\ (forall today : Date.date,
        parse_expense_message today "Eggs , 3.50 , Walmart , Groceries"
        = parse_expense_message today "Eggs, 3.50, Walmart, Groceries").
Proof.
  assert (General :
    forall (today : Date.date) (segs : list (string * string * string)),
      forallb padding_ok segs = true ->
      parse_expense_message today
        (PyStr.join PyStr.comma (map pad_segment segs))
      = parse_expense_message today
          (PyStr.join PyStr.comma (map core_segment segs))).
  { intros today segs H. apply parse_by_parts. now apply padded_parts. }
  split; [exact General|].
  intros today.
  transitivity (parse_expense_message today "Eggs,3.50,Walmart,Groceries").
  - exact (General today
             [("", "Eggs", " "); (" ", "3.50", " "); (" ", "Walmart", " ");
              (" ", "Groceries", "")] eq_refl).
  - symmetry.
    exact (General today
             [("", "Eggs", ""); (" ", "3.50", ""); (" ", "Walmart", "");
              (" ", "Groceries", "")] eq_refl).
Qed.

Lemma C9_whitespace_insensitive_witness :
  forallb padding_ok
    [("  ", "Milk", " "); ("", "2.25", "   "); (" ", "Costco", "");
     (" ", "Groceries", " "); ("  ", "2 gallons", "  ")] = true
  /\ parse_expense_message sample_today
       "  Milk ,2.25   , Costco, Groceries ,  2 gallons  "
     = parse_expense_message sample_today
         "Milk,2.25,Costco,Groceries,2 gallons".
Proof.
  split; [reflexivity|].
  exact (proj1 C9_whitespace_insensitive sample_today
           [("  ", "Milk", " "); ("", "2.25", "   "); (" ", "Costco", "");
            (" ", "Groceries", " "); ("  ", "2 gallons", "  ")] eq_refl).
Defined.

(** ** Every failure of the parser is a [ValueError] *)

(** C10: whatever the message, an exception of the parser is a
    [ValueError], so the handler answers it with the format guidance: no
    unexpected-error reply, nothing logged, no call to the database. *)
Theorem C10_parse_failures_are_ValueError (today : Date.date)
    (message : string) (e : exception) :
  parse_expense_message today message = Raise e ->
  is_ValueError e = true
  /\ exists t,
       e = ValueError t
       /\ forall service w,
            handle_expense today service message w
            = mkWorld (database w) (create_calls w) (error_log w)
                (replies w ++ [FormatGuidance t]).
Proof.
  intros H. destruct (parse_raises_ValueError today message e H) as [t ->].
  split; [reflexivity|].
  exists t. split; [reflexivity|].
  intros service w. now apply handle_parse_failure.
Qed.

Lemma C10_parse_failures_are_ValueError_witness :
  parse_expense_message sample_today
    "Milk, 2.25, Costco, Groceries, 2 gallons, extra"
  = Raise (ValueError (TooManyValues 5))
  /\ is_ValueError (ValueError (TooManyValues 5)) = true
  /\ exists t,
       ValueError (TooManyValues 5) = ValueError t
       /\ forall service w,
            handle_expense sample_today service
              "Milk, 2.25, Costco, Groceries, 2 gallons, extra" w
            = mkWorld (database w) (create_calls w) (error_log w)
                (replies w ++ [FormatGuidance t]).
Proof.
  split; [reflexivity|].
  exact (C10_parse_failures_are_ValueError sample_today
           "Milk, 2.25, Costco, Groceries, 2 gallons, extra" _ eq_refl).
Defined.

(** * Further properties *)

(** ** Characters *)

Local Open Scope Z_scope.

Lemma digit_facts (c : ascii) :
  PyStr.is_digit c = true ->
  PyStr.isspace c = false
  /\ PyFloat.c_isspace c = false
  /\ PyFloat.is_ascii c = true
  /\ (PyStr.code c <? 127)%N = true
  /\ Ascii.eqb c PyStr.comma = false
  /\ Ascii.eqb c "_" = false.
Proof.
  destruct c as [[] [] [] [] [] [] [] []]; vm_compute;
    first [discriminate | repeat split; reflexivity].
Qed.

Lemma digit_char_cases (n : Z) :
  In (Date.digit_char n, n mod 10)
    [("0"%char, 0); ("1"%char, 1); ("2"%char, 2); ("3"%char, 3);
     ("4"%char, 4); ("5"%char, 5); ("6"%char, 6); ("7"%char, 7);
     ("8"%char, 8); ("9"%char, 9)]%Z.
Proof.
  unfold Date.digit_char.
  assert (H : (0 <= n mod 10 < 10)%Z) by (apply Z.mod_pos_bound; lia).
  assert (C : (n mod 10 = 0 \/ n mod 10 = 1 \/ n mod 10 = 2 \/ n mod 10 = 3
               \/ n mod 10 = 4 \/ n mod 10 = 5 \/ n mod 10 = 6
               \/ n mod 10 = 7 \/ n mod 10 = 8 \/ n mod 10 = 9)%Z) by lia.
  repeat (destruct C as [C|C]; [rewrite C; simpl; tauto|]).
  rewrite C; simpl; tauto.
Qed.

Lemma digit_char_is_digit (n : Z) : PyStr.is_digit (Date.digit_char n) = true.
Proof.
  pose proof (digit_char_cases n) as H. simpl in H.
  repeat (destruct H as [H|H]; [injection H as <- _; reflexivity|]).
  contradiction.
Qed.

Lemma digit_char_value (n : Z) :
  Date.digit_value (Date.digit_char n) = (n mod 10)%Z.
Proof.
  pose proof (digit_char_cases n) as H. simpl in H.
  repeat (destruct H as [H|H]; [injection H as <- <-; reflexivity|]).
  contradiction.
Qed.

(** ** [isoformat] and [strptime] *)

Lemma take_all_prefix (p s : string) :
  Regex.consumed (p ++ s) s = p.
Proof.
  unfold Regex.consumed. induction p as [|c p IH].
  - cbn [append]. rewrite Nat.sub_diag. now destruct s.
  - assert (L : (String.length s <= String.length (p ++ s))%nat).
    { clear. induction p; simpl; lia. }
    cbn [append String.length].
    rewrite Nat.sub_succ_l by exact L. cbn [Regex.take]. now rewrite IH.
Qed.

Lemma matches_directive_Y (c1 c2 c3 c4 : ascii) (rest : string)
    (caps : Regex.captures) :
  PyStr.is_digit c1 = true -> PyStr.is_digit c2 = true ->
  PyStr.is_digit c3 = true -> PyStr.is_digit c4 = true ->
  Regex.matches Date.directive_Y
    (String c1 (String c2 (String c3 (String c4 rest)))) caps
  = [(rest,
      ("Y", String c1 (String c2 (String c3 (String c4 EmptyString))))
      :: caps)].
Proof.
  intros H1 H2 H3 H4. unfold Date.directive_Y.
  cbn [Regex.matches Regex.one_char flat_map map app fst snd].
  rewrite H1. cbn [flat_map map app fst snd Regex.one_char].
  rewrite H2. cbn [flat_map map app fst snd Regex.one_char].
  rewrite H3. cbn [flat_map map app fst snd Regex.one_char].
  rewrite H4. cbn [flat_map map app fst snd].
  change (String c1 (String c2 (String c3 (String c4 rest))))
    with (String c1 (String c2 (String c3 (String c4 EmptyString))) ++ rest)
         %string.
  now rewrite take_all_prefix.
Qed.

(** What follows the year in the pattern. *)
Lemma matches_month_day (m d : Z) (caps : Regex.captures) :
  1 <= m <= 12 -> 1 <= d <= 31 ->
  hd_error
    (Regex.matches
       (Regex.Seq (Regex.Lit "-")
          (Regex.Seq Date.directive_m
             (Regex.Seq (Regex.Lit "-") Date.directive_d)))
       (String "-" (Date.pad2 m ++ String "-" (Date.pad2 d))) caps)
  = Some (EmptyString, ("d", Date.pad2 d) :: ("m", Date.pad2 m) :: caps)
  /\ Date.int_of (Date.pad2 m) = m /\ Date.int_of (Date.pad2 d) = d.
Proof.
  intros Hm Hd.
  assert (Cm : m = 1 \/ m = 2 \/ m = 3 \/ m = 4 \/ m = 5 \/ m = 6 \/ m = 7
               \/ m = 8 \/ m = 9 \/ m = 10 \/ m = 11 \/ m = 12) by lia.
  assert (Cd : d = 1 \/ d = 2 \/ d = 3 \/ d = 4 \/ d = 5 \/ d = 6 \/ d = 7
               \/ d = 8 \/ d = 9 \/ d = 10 \/ d = 11 \/ d = 12 \/ d = 13
               \/ d = 14 \/ d = 15 \/ d = 16 \/ d = 17 \/ d = 18 \/ d = 19
               \/ d = 20 \/ d = 21 \/ d = 22 \/ d = 23 \/ d = 24 \/ d = 25
               \/ d = 26 \/ d = 27 \/ d = 28 \/ d = 29 \/ d = 30 \/ d = 31)
    by lia.
  clear Hm Hd.
  repeat (destruct Cm as [Cm|Cm]);
    repeat (destruct Cd as [Cd|Cd]);
    subst m d; repeat split; reflexivity.
Qed.

Lemma strip_digits4 (c1 c2 c3 c4 : ascii) :
  PyStr.is_digit c1 = true -> PyStr.is_digit c2 = true ->
  PyStr.is_digit c3 = true -> PyStr.is_digit c4 = true ->
  PyStr.strip (String c1 (String c2 (String c3 (String c4 EmptyString))))
  = String c1 (String c2 (String c3 (String c4 EmptyString))).
Proof.
  intros H1 H2 H3 H4.
  destruct (digit_facts c1 H1) as (S1 & _).
  destruct (digit_facts c2 H2) as (S2 & _).
  destruct (digit_facts c3 H3) as (S3 & _).
  destruct (digit_facts c4 H4) as (S4 & _).
  unfold PyStr.strip. simpl. rewrite S1. simpl. now rewrite S4.
Qed.

Lemma int_of_pad4 (y : Z) : 0 <= y <= 9999 -> Date.int_of (Date.pad4 y) = y.
Proof.
  intros Hy. unfold Date.int_of, Date.pad4, Date.pad2.
  rewrite strip_digits4 by apply digit_char_is_digit.
  cbn [Date.int_digits]. rewrite !digit_char_value.
  Z.div_mod_to_equations. lia.
Qed.

(** A date printed by [isoformat] is read back by [strptime]. *)
Lemma strptime_isoformat (d : Date.date) :
  Date.valid_date (Date.year d) (Date.month d) (Date.day d) = true ->
  Date.strptime (Date.isoformat d) = Return d.
Proof.
  destruct d as [y m dd]. cbn [Date.year Date.month Date.day]. intros V.
  assert (B : (1 <= y <= 9999) /\ (1 <= m <= 12) /\ (1 <= dd <= 31)).
  { unfold Date.valid_date in V.
    repeat (apply andb_prop in V as [V ?]).
    assert (Date.days_in_month y m <= 31).
    { unfold Date.days_in_month.
      repeat match goal with |- context [if ?b then _ else _] =>
        destruct b end; lia. }
    lia. }
  destruct B as (By & Bm & Bd).
  destruct (matches_month_day m dd
              [("Y", Date.pad4 y)] Bm Bd) as (M & Im & Id).
  unfold Date.strptime, Regex.re_match, Date.format_regex, Date.isoformat.
  cbn [Date.year Date.month Date.day].
  change (Date.pad4 y ++ String "-" (Date.pad2 m ++ String "-" (Date.pad2 dd)))
         %string
    with (String (Date.digit_char (y / 1000))
            (String (Date.digit_char (y / 100))
               (String (Date.digit_char (y / 10))
                  (String (Date.digit_char y)
                     (String "-"
                        (Date.pad2 m ++ String "-" (Date.pad2 dd))))))).
  cbn [Regex.matches].
  rewrite matches_directive_Y by apply digit_char_is_digit.
  cbn [flat_map fst snd].
  change (String (Date.digit_char (y / 1000))
            (String (Date.digit_char (y / 100))
               (String (Date.digit_char (y / 10))
                  (String (Date.digit_char y) EmptyString))))
    with (Date.pad4 y).
  rewrite app_nil_r.
  cbn [Regex.matches] in M. cbn [Regex.matches].
  rewrite M.
  cbv beta iota zeta.
  change (negb (String.eqb EmptyString EmptyString)) with false. cbv iota.
  change (Regex.group "Y" _) with (Date.pad4 y).
  change (Regex.group "m" _) with (Date.pad2 m).
  change (Regex.group "d" _) with (Date.pad2 dd).
  rewrite Im, Id, (int_of_pad4 y) by lia.
  now rewrite V.
Qed.

Local Close Scope Z_scope.

(** ** Trimmed strings *)

Section Trim.
Variable sp : ascii -> bool.

Lemma lstrip_fixed (s : string) :
  PyStr.starts_with sp s = false -> PyStr.lstrip_with sp s = s.
Proof. destruct s as [|c s]; simpl; [reflexivity|]. now intros ->. Qed.

Lemma rstrip_fixed (s : string) :
  PyStr.ends_with sp s = false -> PyStr.rstrip_with sp s = s.
Proof.
  induction s as [|c s IH]; [reflexivity|].
  destruct s as [|c' s'].
  - simpl. now intros ->.
  - intros H. change (PyStr.ends_with sp (String c' s') = false) in H.
    change (PyStr.rstrip_with sp (String c (String c' s')))
      with (match PyStr.rstrip_with sp (String c' s') with
            | EmptyString => if sp c then EmptyString else String c EmptyString
            | kept => String c kept
            end).
    now rewrite (IH H).
Qed.

Lemma lstrip_starts (s : string) :
  PyStr.starts_with sp (PyStr.lstrip_with sp s) = false.
Proof.
  induction s as [|c s IH]; [reflexivity|].
  simpl. destruct (sp c) eqn:E; [exact IH|]. simpl. exact E.
Qed.

Lemma rstrip_ends (s : string) :
  PyStr.ends_with sp (PyStr.rstrip_with sp s) = false.
Proof.
  induction s as [|c s IH]; [reflexivity|].
  simpl. destruct (PyStr.rstrip_with sp s) as [|k ks].
  - destruct (sp c) eqn:E; [reflexivity|]. simpl. exact E.
  - exact IH.
Qed.

Lemma rstrip_starts (s : string) :
  PyStr.starts_with sp s = false ->
  PyStr.starts_with sp (PyStr.rstrip_with sp s) = false.
Proof.
  destruct s as [|c s]; [reflexivity|].
  simpl. intros E. destruct (PyStr.rstrip_with sp s); rewrite ?E; exact E.
Qed.

Lemma has_char_lstrip (x : ascii) (s : string) :
  PyStr.has_char x s = false ->
  PyStr.has_char x (PyStr.lstrip_with sp s) = false.
Proof.
  induction s as [|c s IH]; [reflexivity|].
  intros H. simpl. destruct (sp c); [|exact H].
  simpl in H. apply orb_false_elim in H as [_ H]. auto.
Qed.

Lemma has_char_rstrip (x : ascii) (s : string) :
  PyStr.has_char x s = false ->
  PyStr.has_char x (PyStr.rstrip_with sp s) = false.
Proof.
  induction s as [|c s IH]; [reflexivity|].
  intros H. simpl in H. apply orb_false_elim in H as [Hc Hs].
  simpl. specialize (IH Hs).
  destruct (PyStr.rstrip_with sp s) as [|k ks].
  - destruct (sp c); [reflexivity|]. simpl. now rewrite Hc.
  - change (PyStr.has_char x (String c (String k ks)))
      with (Ascii.eqb c x || PyStr.has_char x (String k ks)).
    now rewrite Hc, IH.
Qed.
End Trim.

Lemma strip_fixed (s : string) :
  PyStr.starts_with PyStr.isspace s = false ->
  PyStr.ends_with PyStr.isspace s = false ->
  PyStr.strip s = s.
Proof.
  intros Hs He. unfold PyStr.strip.
  rewrite (lstrip_fixed _ s Hs). now apply rstrip_fixed.
Qed.

Lemma strip_trimmed (s : string) :
  PyStr.starts_with PyStr.isspace (PyStr.strip s) = false
  /\ PyStr.ends_with PyStr.isspace (PyStr.strip s) = false.
Proof.
  unfold PyStr.strip. split.
  - apply rstrip_starts, lstrip_starts.
  - apply rstrip_ends.
Qed.

Lemma strip_idempotent (s : string) :
  PyStr.strip (PyStr.strip s) = PyStr.strip s.
Proof. destruct (strip_trimmed s). now apply strip_fixed. Qed.

Lemma has_char_strip (x : ascii) (s : string) :
  PyStr.has_char x s = false -> PyStr.has_char x (PyStr.strip s) = false.
Proof.
  intros H. unfold PyStr.strip. now apply has_char_rstrip, has_char_lstrip.
Qed.

(** ** Pieces of a split *)

Lemma split_length (sep : ascii) (s : string) :
  List.length (PyStr.split sep s) = S (PyStr.count_char sep s).
Proof.
  induction s as [|c s IH]; [reflexivity|].
  simpl. destruct (Ascii.eqb c sep).
  - simpl. now rewrite IH.
  - destruct (PyStr.split sep s); simpl in *; [discriminate|exact IH].
Qed.

Lemma split_pieces_without_sep (sep : ascii) (s : string) :
  Forall (fun p => PyStr.has_char sep p = false) (PyStr.split sep s).
Proof.
  induction s as [|c s IH]; simpl.
  - repeat constructor.
  - destruct (Ascii.eqb c sep) eqn:E.
    + constructor; [reflexivity|exact IH].
    + destruct (PyStr.split sep s) as [|p ps].
      * repeat constructor. simpl. now rewrite E.
      * inversion IH as [|? ? Hp Hps]; subst.
        constructor; [|exact Hps]. simpl. now rewrite E, Hp.
Qed.

Lemma split_parts_preimage (message p : string) :
  In p (split_parts message) ->
  exists q, PyStr.strip q = p /\ In q (PyStr.split PyStr.comma message).
Proof.
  unfold split_parts. intros H. apply in_map_iff in H. exact H.
Qed.

Lemma strip_piece_without_comma (message q : string) :
  In q (PyStr.split PyStr.comma message) ->
  PyStr.has_char PyStr.comma (PyStr.strip q) = false.
Proof.
  intros Hq. apply has_char_strip.
  pose proof (split_pieces_without_sep PyStr.comma message) as F.
  rewrite Forall_forall in F. apply F. exact Hq.
Qed.

Lemma split_parts_trimmed (message p : string) :
  In p (split_parts message) ->
  PyStr.strip p = p /\ PyStr.has_char PyStr.comma p = false.
Proof.
  intros H. destruct (split_parts_preimage message p H) as (q & E & Hq).
  rewrite <- E. split.
  - apply strip_idempotent.
  - exact (strip_piece_without_comma message q Hq).
Qed.

(** ** More on segment resolution *)

(** The text fields come from the parts; a quantity can also be empty. *)
Lemma resolve_fields_from_parts (today : Date.date) (message : string)
    (f : Fields) :
  resolve_segments today message = Return f ->
  Forall (fun x => In x (split_parts message) \/ x = EmptyString)
    [f_item f; f_price f; f_store f; f_category f; f_quantity f].
Proof.
  unfold resolve_segments.
  destruct (split_parts message)
    as [|s0 [|s1 [|s2 [|s3 [|s4 [|s5 [|s6 rest]]]]]]]; simpl;
    try discriminate.
  - intros [= <-].
    repeat (apply Forall_cons; [simpl; tauto|]). apply Forall_nil.
  - destruct (Date.strptime s0) as [d|[t|t]]; simpl; try discriminate;
      intros [= <-];
      repeat (apply Forall_cons; [simpl; tauto|]); apply Forall_nil.
  - destruct (Date.strptime s0) as [d|[t|t]]; simpl; try discriminate;
      intros [= <-];
      repeat (apply Forall_cons; [simpl; tauto|]); apply Forall_nil.
Qed.

Lemma strptime_valid (s : string) (d : Date.date) :
  Date.strptime s = Return d ->
  Date.valid_date (Date.year d) (Date.month d) (Date.day d) = true.
Proof.
  unfold Date.strptime.
  destruct (Regex.re_match Date.format_regex s) as [[rest found]|];
    [|discriminate].
  destruct (negb (rest =? "")%string); [discriminate|].
  destruct Date.valid_date eqn:V; [|discriminate].
  now intros [= <-].
Qed.

Lemma resolve_date (today : Date.date) (message : string) (f : Fields) :
  resolve_segments today message = Return f ->
  f_date f = today
  \/ Date.valid_date (Date.year (f_date f)) (Date.month (f_date f))
       (Date.day (f_date f)) = true.
Proof.
  unfold resolve_segments.
  destruct (split_parts message)
    as [|s0 [|s1 [|s2 [|s3 [|s4 [|s5 [|s6 rest]]]]]]]; simpl;
    try discriminate.
  - intros [= <-]. now left.
  - destruct (Date.strptime s0) as [d|[t|t]] eqn:E; simpl; try discriminate;
      intros [= <-]; simpl; [right|left]; eauto using strptime_valid.
  - destruct (Date.strptime s0) as [d|[t|t]] eqn:E; simpl; try discriminate;
      intros [= <-]; simpl; right; eauto using strptime_valid.
Qed.

(** Segment resolution on two processing dates: the same exception, or
    fields that differ at most by the date. *)
Lemma resolve_two_days (t1 t2 : Date.date) (message : string) :
  match resolve_segments t1 message, resolve_segments t2 message with
  | Return f1, Return f2 =>
      f_item f1 = f_item f2 /\ f_price f1 = f_price f2
      /\ f_store f1 = f_store f2 /\ f_category f1 = f_category f2
      /\ f_quantity f1 = f_quantity f2
      /\ (f_date f1 = f_date f2 \/ (f_date f1 = t1 /\ f_date f2 = t2))
  | Raise e1, Raise e2 => e1 = e2
  | _, _ => False
  end.
Proof.
  unfold resolve_segments.
  destruct (split_parts message)
    as [|s0 [|s1 [|s2 [|s3 [|s4 [|s5 [|s6 rest]]]]]]]; simpl;
    try reflexivity.
  - repeat split; tauto.
  - destruct (Date.strptime s0) as [d|[t|t]]; simpl;
      first [reflexivity | repeat split; tauto].
  - destruct (Date.strptime s0) as [d|[t|t]]; simpl;
      first [reflexivity | repeat split; tauto].
Qed.

(** * Further properties of the parser *)

(** X1: six trimmed segments whose first [strptime] accepts as the date
    [d], and whose third [float] reads as [p], give the record with the
    date [d] and segments 1 to 5 as item, price, store, category and
    quantity. *)
Theorem parse_six_segments_dated (today d : Date.date)
    (message s0 s1 s2 s3 s4 s5 : string) (p : PyFloat.float) :
  split_parts message = [s0; s1; s2; s3; s4; s5] ->
  Date.strptime s0 = Return d ->
  PyFloat.float_of_str s2 = Return p ->
  parse_expense_message today message = Return (mkExpense d s1 p s3 s4 s5).
Proof.
  intros H Hd Hp. unfold parse_expense_message.
  rewrite (resolve_six_dated today d message s0 s1 s2 s3 s4 s5 H Hd).
  simpl. unfold build_expense. simpl. now rewrite Hp.
Qed.

Lemma parse_six_segments_dated_witness :
  split_parts "2024-01-15, Bread, 2.25, Kroger, Groceries, 2 loaves"
  = ["2024-01-15"; "Bread"; "2.25"; "Kroger"; "Groceries"; "2 loaves"]
  /\ Date.strptime "2024-01-15" = Return (Date.mkDate 2024 1 15)
  /\ parse_expense_message sample_today
       "2024-01-15, Bread, 2.25, Kroger, Groceries, 2 loaves"
     = Return (mkExpense (Date.mkDate 2024 1 15) "Bread"
                 (S754_finite false 5066549580791808 (-51))
                 "Kroger" "Groceries" "2 loaves").
Proof.
  split; [reflexivity|]. split; [reflexivity|].
  apply (parse_six_segments_dated sample_today (Date.mkDate 2024 1 15)
           "2024-01-15, Bread, 2.25, Kroger, Groceries, 2 loaves"
           "2024-01-15" "Bread" "2.25" "Kroger" "Groceries" "2 loaves").
  - reflexivity.
  - reflexivity.
  - vm_compute; reflexivity.
Defined.

(** The parser, by the number of trimmed parts. *)
Lemma parse_by_cases (today : Date.date) (message : string) :
  parse_expense_message today message
  = match split_parts message with
    | [s0; s1; s2; s3] =>
        build_expense (mkFields today s0 s1 s2 s3 EmptyString)
    | [s0; s1; s2; s3; s4] =>
        match Date.strptime s0 with
        | Return d => build_expense (mkFields d s1 s2 s3 s4 EmptyString)
        | Raise _ => build_expense (mkFields today s0 s1 s2 s3 s4)
        end
    | [s0; s1; s2; s3; s4; s5] =>
        match Date.strptime s0 with
        | Return d => build_expense (mkFields d s1 s2 s3 s4 s5)
        | Raise _ => Raise (ValueError (TooManyValues 5))
        end
    | _ => Raise (ValueError (Literal invalid_format_text))
    end.
Proof.
  unfold parse_expense_message, resolve_segments.
  destruct (split_parts message)
    as [|s0 [|s1 [|s2 [|s3 [|s4 [|s5 [|s6 rest]]]]]]]; simpl;
    try reflexivity.
  - destruct (Date.strptime s0) as [d|e] eqn:E; simpl; [reflexivity|].
    destruct (strptime_raises_ValueError s0 e E) as [t ->]. reflexivity.
  - destruct (Date.strptime s0) as [d|e] eqn:E; simpl; [reflexivity|].
    destruct (strptime_raises_ValueError s0 e E) as [t ->]. reflexivity.
Qed.

Lemma build_succeeded (f : Fields) :
  succeeded (build_expense f) = succeeded (PyFloat.float_of_str (f_price f)).
Proof.
  unfold build_expense. now destruct (PyFloat.float_of_str (f_price f)).
Qed.

Lemma build_raises (f : Fields) (e : exception) :
  build_expense f = Raise e -> e = ValueError (FloatConversion (f_price f)).
Proof.
  unfold build_expense.
  destruct (PyFloat.float_of_str (f_price f)) as [p|e'] eqn:F; simpl;
    [discriminate|].
  intros [= <-]. exact (float_raises _ _ F).
Qed.

(** X2: the parser returns a record exactly for the accepted shapes of the
    trimmed parts; whether it does is the same on every processing
    date. *)
Theorem parse_accepts_iff (today : Date.date) (message : string) :
  succeeded (parse_expense_message today message) = true
  <-> accepted_shape (split_parts message).
Proof.
  rewrite parse_by_cases. unfold accepted_shape.
  destruct (split_parts message)
    as [|s0 [|s1 [|s2 [|s3 [|s4 [|s5 [|s6 rest]]]]]]].
  1-4, 8: split;
    [discriminate
    |intros [(?&?&?&?&E&_)|[(?&?&?&?&?&E&_)|[(?&?&?&?&?&E&_)
                                            |(?&?&?&?&?&?&E&_)]]];
     discriminate E].
  - rewrite build_succeeded. simpl. split.
    + intros H. left. exists s0, s1, s2, s3. now split.
    + intros [(?&?&?&?&E&H)|[(?&?&?&?&?&E&_)|[(?&?&?&?&?&E&_)
                                             |(?&?&?&?&?&?&E&_)]]];
        try discriminate E.
      now injection E as <- <- <- <-.
  - destruct (Date.strptime s0) as [d|e] eqn:D; rewrite build_succeeded;
      simpl; split.
    + intros H. right. left. exists s0, s1, s2, s3, s4.
      rewrite D. now repeat split.
    + intros [(?&?&?&?&E&H)|[(?&?&?&?&?&E&_&H)|[(?&?&?&?&?&E&H&_)
                                               |(?&?&?&?&?&?&E&_)]]];
        try discriminate E.
      * now injection E as <- <- <- <- <-.
      * injection E as <- <- <- <- <-. rewrite D in H. discriminate H.
    + intros H. right. right. left. exists s0, s1, s2, s3, s4.
      rewrite D. now repeat split.
    + intros [(?&?&?&?&E&H)|[(?&?&?&?&?&E&H&_)|[(?&?&?&?&?&E&_&H)
                                               |(?&?&?&?&?&?&E&_)]]];
        try discriminate E.
      * injection E as <- <- <- <- <-. rewrite D in H. discriminate H.
      * now injection E as <- <- <- <- <-.
  - destruct (Date.strptime s0) as [d|e] eqn:D; [rewrite build_succeeded|];
      simpl; split.
    + intros H. right. right. right. exists s0, s1, s2, s3, s4, s5.
      rewrite D. now repeat split.
    + intros [(?&?&?&?&E&H)|[(?&?&?&?&?&E&_)|[(?&?&?&?&?&E&_)
                                             |(?&?&?&?&?&?&E&_&H)]]];
        try discriminate E.
      now injection E as <- <- <- <- <- <-.
    + discriminate.
    + intros [(?&?&?&?&E&H)|[(?&?&?&?&?&E&_)|[(?&?&?&?&?&E&_)
                                             |(?&?&?&?&?&?&E&H&_)]]];
        try discriminate E.
      injection E as <- <- <- <- <- <-. rewrite D in H. discriminate H.
Qed.

Lemma parse_accepts_iff_witness :
  accepted_shape (split_parts "Eggs, 3.50, Walmart, Groceries")
  /\ succeeded
       (parse_expense_message sample_today "Eggs, 3.50, Walmart, Groceries")
     = true.
Proof.
  assert (A : accepted_shape (split_parts "Eggs, 3.50, Walmart, Groceries")).
  { left. exists "Eggs", "3.50", "Walmart", "Groceries".
    split; [reflexivity|vm_compute; reflexivity]. }
  split; [exact A|].
  exact (proj2 (parse_accepts_iff sample_today
                  "Eggs, 3.50, Walmart, Groceries") A).
Defined.

(** X3: the refusal "Invalid message format" is decided by the number of
    commas alone: it is raised exactly when the message has fewer than 3
    or more than 5 of them, the empty message included. *)
Theorem invalid_format_iff_comma_count (today : Date.date)
    (message : string) :
  parse_expense_message today message
  = Raise (ValueError (Literal invalid_format_text))
  <-> (PyStr.count_char PyStr.comma message < 3
       \/ 5 < PyStr.count_char PyStr.comma message)%nat.
Proof.
  pose proof (split_length PyStr.comma message) as L.
  rewrite <- split_parts_length in L.
  split.
  - intros H. rewrite parse_by_cases in H.
    destruct (split_parts message)
      as [|s0 [|s1 [|s2 [|s3 [|s4 [|s5 [|s6 rest]]]]]]];
      simpl in L; try lia.
    + apply build_raises in H. discriminate H.
    + destruct (Date.strptime s0); apply build_raises in H; discriminate H.
    + destruct (Date.strptime s0);
        [apply build_raises in H|]; discriminate H.
  - intros H. unfold parse_expense_message.
    rewrite resolve_other; [reflexivity| | |]; lia.
Qed.

Lemma invalid_format_iff_comma_count_witness :
  (PyStr.count_char PyStr.comma "" < 3
   \/ 5 < PyStr.count_char PyStr.comma "")%nat
  /\ parse_expense_message sample_today ""
     = Raise (ValueError (Literal invalid_format_text)).
Proof.
  assert (C : (PyStr.count_char PyStr.comma "" < 3
               \/ 5 < PyStr.count_char PyStr.comma "")%nat)
    by (left; simpl; lia).
  split; [exact C|].
  exact (proj2 (invalid_format_iff_comma_count sample_today "") C).
Defined.

(** X4: the text fields of a record that the parser returns are trimmed
    and hold no comma: stripping the item, the store, the category or the
    quantity again changes nothing. *)
Theorem record_fields_trimmed (today : Date.date) (message : string)
    (r : Expense) :
  parse_expense_message today message = Return r ->
  Forall (fun x => PyStr.strip x = x
                   /\ PyStr.has_char PyStr.comma x = false)
    [item r; store r; category r; quantity r].
Proof.
  intros H.
  destruct (parse_success today message r H)
    as (f & Hf & _ & _ & -> & -> & -> & ->).
  pose proof (resolve_fields_from_parts today message f Hf) as F.
  assert (P : forall x, In x (split_parts message) \/ x = EmptyString ->
              PyStr.strip x = x /\ PyStr.has_char PyStr.comma x = false).
  { intros x [Hx| ->]; [now apply (split_parts_trimmed message)|].
    split; reflexivity. }
  inversion F as [|? ? Hi F1]; subst.
  inversion F1 as [|? ? _ F2]; subst.
  inversion F2 as [|? ? Hs F3]; subst.
  inversion F3 as [|? ? Hc F4]; subst.
  inversion F4 as [|? ? Hq _]; subst.
  repeat (apply Forall_cons; [apply P; assumption|]). apply Forall_nil.
Qed.

Lemma record_fields_trimmed_witness :
  parse_expense_message sample_today
    "  Milk ,2.25   , Costco, Groceries ,  2 gallons  "
  = Return (mkExpense sample_today "Milk"
              (S754_finite false 5066549580791808 (-51))
              "Costco" "Groceries" "2 gallons")
  /\ Forall (fun x => PyStr.strip x = x
                      /\ PyStr.has_char PyStr.comma x = false)
       ["Milk"; "Costco"; "Groceries"; "2 gallons"].
Proof.
  assert (H : parse_expense_message sample_today
                "  Milk ,2.25   , Costco, Groceries ,  2 gallons  "
              = Return (mkExpense sample_today "Milk"
                          (S754_finite false 5066549580791808 (-51))
                          "Costco" "Groceries" "2 gallons"))
    by (vm_compute; reflexivity).
  split; [exact H|].
  exact (record_fields_trimmed sample_today _ _ H).
Defined.

(** X5: when the processing date is a date of the calendar, so is the
    date of every record that the parser returns. *)
Theorem record_date_valid (today : Date.date) (message : string)
    (r : Expense) :
  Date.valid_date (Date.year today) (Date.month today) (Date.day today)
  = true ->
  parse_expense_message today message = Return r ->
  Date.valid_date (Date.year (date r)) (Date.month (date r))
    (Date.day (date r)) = true.
Proof.
  intros V H.
  destruct (parse_success today message r H) as (f & Hf & _ & -> & _).
  destruct (resolve_date today message f Hf) as [-> | Hv]; assumption.
Qed.

Lemma record_date_valid_witness :
  Date.valid_date 2026 11 3 = true
  /\ parse_expense_message sample_today
       "2024-02-29, Bread, 2.25, Kroger, Groceries"
     = Return (mkExpense (Date.mkDate 2024 2 29) "Bread"
                 (S754_finite false 5066549580791808 (-51))
                 "Kroger" "Groceries" "")
  /\ Date.valid_date 2024 2 29 = true.
Proof.
  assert (H : parse_expense_message sample_today
                "2024-02-29, Bread, 2.25, Kroger, Groceries"
              = Return (mkExpense (Date.mkDate 2024 2 29) "Bread"
                          (S754_finite false 5066549580791808 (-51))
                          "Kroger" "Groceries" ""))
    by (vm_compute; reflexivity).
  split; [reflexivity|]. split; [exact H|].
  exact (record_date_valid sample_today _ _ eq_refl H).
Defined.

(** X6: the processing date decides nothing but the date of the record:
    on two processing dates the parser raises the same exception, or
    returns two records with the same item, price, store, category and
    quantity, whose dates are equal or are the two processing dates. *)
Theorem parse_on_two_days (t1 t2 : Date.date) (message : string) :
  match parse_expense_message t1 message, parse_expense_message t2 message
  with
  | Return r1, Return r2 =>
      item r1 = item r2 /\ price r1 = price r2 /\ store r1 = store r2
      /\ category r1 = category r2 /\ quantity r1 = quantity r2
      /\ (date r1 = date r2 \/ (date r1 = t1 /\ date r2 = t2))
  | Raise e1, Raise e2 => e1 = e2
  | _, _ => False
  end.
Proof.
  pose proof (resolve_two_days t1 t2 message) as R.
  unfold parse_expense_message.
  destruct (resolve_segments t1 message) as [f1|e1],
           (resolve_segments t2 message) as [f2|e2];
    simpl; try contradiction; [|exact R].
  destruct R as (Hi & Hp & Hs & Hc & Hq & Hd).
  unfold build_expense. rewrite Hp.
  destruct (PyFloat.float_of_str (f_price f2)); simpl; [|reflexivity].
  repeat split; assumption.
Qed.

(** * Dates written by the bot and read by the parser *)

(** X7: [strptime] reads back every date that [isoformat] prints, the
    form in which the bot sends and shows the date of a record. *)
Theorem strptime_reads_isoformat (d : Date.date) :
  Date.valid_date (Date.year d) (Date.month d) (Date.day d) = true ->
  Date.strptime (Date.isoformat d) = Return d.
Proof. intros V. now apply strptime_isoformat. Qed.

Lemma strptime_reads_isoformat_witness :
  Date.valid_date 2024 2 29 = true
  /\ Date.isoformat (Date.mkDate 2024 2 29) = "2024-02-29"
  /\ Date.strptime (Date.isoformat (Date.mkDate 2024 2 29))
     = Return (Date.mkDate 2024 2 29).
Proof.
  split; [reflexivity|]. split; [reflexivity|].
  exact (strptime_reads_isoformat (Date.mkDate 2024 2 29) eq_refl).
Defined.

Lemma isoformat_chars (d : Date.date) :
  exists c1 c2 c3 c4 c5 c6 c7 c8,
    Date.isoformat d
    = String c1 (String c2 (String c3 (String c4 (String "-"
        (String c5 (String c6 (String "-"
           (String c7 (String c8 EmptyString)))))))))
    /\ Forall (fun c => PyStr.is_digit c = true)
         [c1; c2; c3; c4; c5; c6; c7; c8].
Proof.
  do 8 eexists. split; [reflexivity|].
  repeat (apply Forall_cons; [apply digit_char_is_digit|]). apply Forall_nil.
Qed.

Lemma isoformat_plain (d : Date.date) :
  PyStr.strip (Date.isoformat d) = Date.isoformat d
  /\ PyStr.has_char PyStr.comma (Date.isoformat d) = false.
Proof.
  destruct (isoformat_chars d)
    as (c1 & c2 & c3 & c4 & c5 & c6 & c7 & c8 & -> & F).
  inversion F as [|? ? H1 F1]; subst. inversion F1 as [|? ? H2 F2]; subst.
  inversion F2 as [|? ? H3 F3]; subst. inversion F3 as [|? ? H4 F4]; subst.
  inversion F4 as [|? ? H5 F5]; subst. inversion F5 as [|? ? H6 F6]; subst.
  inversion F6 as [|? ? H7 F7]; subst. inversion F7 as [|? ? H8 _]; subst.
  destruct (digit_facts c1 H1) as (S1 & _ & _ & _ & K1 & _).
  destruct (digit_facts c2 H2) as (_ & _ & _ & _ & K2 & _).
  destruct (digit_facts c3 H3) as (_ & _ & _ & _ & K3 & _).
  destruct (digit_facts c4 H4) as (_ & _ & _ & _ & K4 & _).
  destruct (digit_facts c5 H5) as (_ & _ & _ & _ & K5 & _).
  destruct (digit_facts c6 H6) as (_ & _ & _ & _ & K6 & _).
  destruct (digit_facts c7 H7) as (_ & _ & _ & _ & K7 & _).
  destruct (digit_facts c8 H8) as (S8 & _ & _ & _ & K8 & _).
  split.
  - apply strip_fixed; simpl; assumption.
  - simpl. rewrite K1, K2, K3, K4, K5, K6, K7, K8. reflexivity.
Qed.

Lemma split_parts_leading_date (d : Date.date) (message : string) :
  split_parts (Date.isoformat d ++ String PyStr.comma message)
  = Date.isoformat d :: split_parts message.
Proof.
  destruct (isoformat_plain d) as [St Hc].
  unfold split_parts. rewrite (split_app_sep _ _ _ Hc).
  simpl. now rewrite St.
Qed.

(** X8: a date in front acts as the processing date.  For a message of
    four trimmed parts, or of five whose first [strptime] refuses, writing
    a date of the calendar and a comma before it gives what the parser
    gives for the message alone on that day. *)
Theorem leading_date_is_processing_date (today d : Date.date)
    (message : string) :
  Date.valid_date (Date.year d) (Date.month d) (Date.day d) = true ->
  (List.length (split_parts message) = 4%nat
   \/ (List.length (split_parts message) = 5%nat
       /\ succeeded (Date.strptime (hd EmptyString (split_parts message)))
          = false)) ->
  parse_expense_message today
    (Date.isoformat d ++ String PyStr.comma message)
  = parse_expense_message d message.
Proof.
  intros V H.
  rewrite (parse_by_cases today), (parse_by_cases d).
  rewrite split_parts_leading_date.
  rewrite (strptime_isoformat d V).
  destruct (split_parts message)
    as [|s0 [|s1 [|s2 [|s3 [|s4 [|s5 rest]]]]]];
    simpl in H; try (exfalso; destruct H as [H|[H _]]; discriminate H).
  - reflexivity.
  - destruct H as [H|[_ H]]; [discriminate H|].
    destruct (Date.strptime s0); [discriminate H|reflexivity].
Qed.

Lemma leading_date_is_processing_date_witness :
  Date.valid_date 2024 1 15 = true
  /\ List.length (split_parts " Bread, 2.25, Kroger, Groceries") = 4%nat
  /\ parse_expense_message sample_today
       "2024-01-15, Bread, 2.25, Kroger, Groceries"
     = parse_expense_message (Date.mkDate 2024 1 15)
         " Bread, 2.25, Kroger, Groceries".
Proof.
  split; [reflexivity|]. split; [reflexivity|].
  exact (leading_date_is_processing_date sample_today (Date.mkDate 2024 1 15)
           " Bread, 2.25, Kroger, Groceries" eq_refl (or_introl eq_refl)).
Defined.

(** * Prices that [float] reads and prices it refuses *)

Lemma all_chars_app (p : ascii -> bool) (s t : string) :
  PyStr.all_chars p (s ++ t) = PyStr.all_chars p s && PyStr.all_chars p t.
Proof.
  induction s as [|c s IH]; simpl; [reflexivity|].
  now rewrite IH, andb_assoc.
Qed.

Lemma all_chars_weaken (p q : ascii -> bool) (s : string) :
  (forall c, p c = true -> q c = true) ->
  PyStr.all_chars p s = true -> PyStr.all_chars q s = true.
Proof.
  intros W. induction s as [|c s IH]; simpl; [reflexivity|].
  intros H. apply andb_prop in H as [Hc Hs].
  now rewrite (W c Hc), (IH Hs).
Qed.

Lemma all_chars_without (p : ascii -> bool) (x : ascii) (s : string) :
  (forall c, p c = true -> Ascii.eqb c x = false) ->
  PyStr.all_chars p s = true -> PyStr.has_char x s = false.
Proof.
  intros W. induction s as [|c s IH]; simpl; [reflexivity|].
  intros H. apply andb_prop in H as [Hc Hs].
  now rewrite (W c Hc), (IH Hs).
Qed.

Lemma ends_with_app (sp : ascii -> bool) (s : string) (c : ascii)
    (t : string) :
  PyStr.ends_with sp (s ++ String c t) = PyStr.ends_with sp (String c t).
Proof.
  induction s as [|a s IH]; [reflexivity|].
  change ((String a s ++ String c t)%string)
    with (String a (s ++ String c t)).
  destruct s as [|b s']; [reflexivity|].
  exact IH.
Qed.

Lemma ends_with_all (sp q : ascii -> bool) (s : string) :
  (forall c, q c = true -> sp c = false) ->
  PyStr.all_chars q s = true -> PyStr.ends_with sp s = false.
Proof.
  intros W. induction s as [|c s IH]; [reflexivity|].
  intros H. simpl in H. apply andb_prop in H as [Hc Hs].
  destruct s as [|b s']; [simpl; now apply W|].
  exact (IH Hs).
Qed.

(** A digit or a point. *)
Lemma plain_char_facts (c : ascii) :
  PyStr.is_digit c || Ascii.eqb c "." = true ->
  PyFloat.c_isspace c = false
  /\ PyFloat.is_ascii c = true
  /\ Ascii.eqb c "_" = false.
Proof.
  destruct c as [[] [] [] [] [] [] [] []]; vm_compute;
    first [discriminate | repeat split; reflexivity].
Qed.

Lemma sign_of_digit (c : ascii) (s : string) :
  PyStr.is_digit c = true ->
  PyFloat.sign_of (String c s) = (false, String c s).
Proof.
  destruct c as [[] [] [] [] [] [] [] []]; intros H;
    first [reflexivity | vm_compute in H; discriminate H].
Qed.

Lemma span_digits (ip rest : string) :
  PyStr.all_chars PyStr.is_digit ip = true ->
  PyStr.starts_with PyStr.is_digit rest = false ->
  PyFloat.span PyStr.is_digit (ip ++ rest) = (ip, rest).
Proof.
  intros H R. induction ip as [|c ip IH]; simpl.
  - destruct rest as [|r rest]; [reflexivity|].
    simpl in R. simpl. now rewrite R.
  - simpl in H. apply andb_prop in H as [Hc Hs].
    now rewrite Hc, (IH Hs).
Qed.

Lemma append_empty (s : string) : (s ++ "")%string = s.
Proof. induction s as [|c s IH]; simpl; [reflexivity|]. now rewrite IH. Qed.

(** [float] on text made of digits and points that starts with a digit:
    nothing is rewritten or stripped before the number is read. *)
Lemma float_of_plain (c : ascii) (s : string) :
  PyStr.is_digit c = true ->
  PyStr.all_chars (fun a => PyStr.is_digit a || Ascii.eqb a ".") s = true ->
  PyFloat.float_of_str (String c s)
  = match PyFloat.string_to_double (String c s) with
    | Some (x, EmptyString) => Return x
    | _ => Raise (ValueError (FloatConversion (String c s)))
    end.
Proof.
  intros Hc Hs.
  assert (Hall : PyStr.all_chars
                   (fun a => PyStr.is_digit a || Ascii.eqb a ".")
                   (String c s) = true) by (simpl; now rewrite Hc, Hs).
  unfold PyFloat.float_of_str, PyFloat.transform_decimal_and_space.
  rewrite (all_chars_weaken _ PyFloat.is_ascii (String c s)
             (fun a H => proj1 (proj2 (plain_char_facts a H))) Hall).
  rewrite (all_chars_without _ "_"%char (String c s)
             (fun a H => proj2 (proj2 (plain_char_facts a H))) Hall).
  unfold PyFloat.from_string_inner.
  rewrite lstrip_fixed
    by (simpl; exact (proj1 (plain_char_facts c
                               (eq_trans (f_equal (fun b => b || _) Hc)
                                  eq_refl)))).
  rewrite rstrip_fixed
    by (apply (ends_with_all _ _ (String c s)
                 (fun a H => proj1 (plain_char_facts a H)) Hall)).
  destruct (PyFloat.string_to_double (String c s)) as [[x [|r rest]]|];
    reflexivity.
Qed.

Lemma span_all_digits (s : string) :
  PyStr.all_chars PyStr.is_digit s = true ->
  PyFloat.span PyStr.is_digit s = (s, EmptyString).
Proof.
  intros H. rewrite <- (append_empty s) at 1.
  now apply span_digits.
Qed.

Lemma string_to_double_dotted (c : ascii) (ip fp : string) :
  PyStr.all_chars PyStr.is_digit (String c ip) = true ->
  PyStr.all_chars PyStr.is_digit fp = true ->
  PyFloat.string_to_double (String c ip ++ String "." fp)
  = Some (PyFloat.of_decimal false
            (Date.int_digits 0 (String c ip ++ fp))
            (- Z.of_nat (String.length fp)),
          EmptyString).
Proof.
  intros Hi Hf.
  assert (Hc : PyStr.is_digit c = true)
    by (simpl in Hi; now apply andb_prop in Hi as [Hc _]).
  unfold PyFloat.string_to_double, PyFloat.parse_decimal.
  change ((String c ip ++ String "." fp)%string)
    with (String c (ip ++ String "." fp)).
  rewrite (sign_of_digit c _ Hc).
  change (String c (ip ++ String "." fp))
    with ((String c ip ++ String "." fp)%string).
  rewrite (span_digits (String c ip) (String "." fp) Hi eq_refl).
  cbv beta iota zeta.
  rewrite (span_all_digits fp Hf).
  reflexivity.
Qed.

Lemma string_to_double_integer (c : ascii) (ip : string) :
  PyStr.all_chars PyStr.is_digit (String c ip) = true ->
  PyFloat.string_to_double (String c ip)
  = Some (PyFloat.of_decimal false (Date.int_digits 0 (String c ip)) 0,
          EmptyString).
Proof.
  intros Hi.
  assert (Hc : PyStr.is_digit c = true)
    by (simpl in Hi; now apply andb_prop in Hi as [Hc _]).
  unfold PyFloat.string_to_double, PyFloat.parse_decimal.
  rewrite (sign_of_digit c _ Hc).
  rewrite (span_all_digits (String c ip) Hi).
  cbv beta iota zeta.
  change ((String c ip ++ "")%string) with (String c (ip ++ "")).
  cbv beta iota. rewrite append_empty. reflexivity.
Qed.

Lemma digits_are_plain (s : string) :
  PyStr.all_chars PyStr.is_digit s = true ->
  PyStr.all_chars (fun a => PyStr.is_digit a || Ascii.eqb a ".") s = true.
Proof.
  apply all_chars_weaken. intros a H. now rewrite H.
Qed.

(** [float] on an unsigned decimal numeral, with or without a fraction:
    the nearest binary64 to the number written. *)
Lemma float_of_decimal_numeral (c : ascii) (ip : string) :
  PyStr.all_chars PyStr.is_digit (String c ip) = true ->
  PyFloat.float_of_str (String c ip)
  = Return (PyFloat.of_decimal false (Date.int_digits 0 (String c ip)) 0)
  /\ forall fp,
       PyStr.all_chars PyStr.is_digit fp = true ->
       PyFloat.float_of_str (String c ip ++ String "." fp)
       = Return (PyFloat.of_decimal false
                   (Date.int_digits 0 (String c ip ++ fp))
                   (- Z.of_nat (String.length fp))).
Proof.
  intros Hi.
  assert (Hc : PyStr.is_digit c = true /\ PyStr.all_chars PyStr.is_digit ip
                                          = true)
    by (simpl in Hi; now apply andb_prop in Hi).
  destruct Hc as [Hc Hip].
  split.
  - rewrite (float_of_plain c ip Hc (digits_are_plain ip Hip)).
    now rewrite (string_to_double_integer c ip Hi).
  - intros fp Hf.
    change ((String c ip ++ String "." fp)%string)
      with (String c (ip ++ String "." fp)).
    rewrite (float_of_plain c (ip ++ String "." fp) Hc).
    + change (String c (ip ++ String "." fp))
        with ((String c ip ++ String "." fp)%string).
      now rewrite (string_to_double_dotted c ip fp Hi Hf).
    + rewrite all_chars_app. rewrite (digits_are_plain ip Hip). simpl.
      now rewrite (digits_are_plain fp Hf).
Qed.

(** The parser on a price that is an unsigned decimal numeral. *)
Lemma parse_numeral_price (today : Date.date) (message : string)
    (f : Fields) (ip fp : string) :
  resolve_segments today message = Return f ->
  ip <> EmptyString ->
  PyStr.all_chars PyStr.is_digit ip = true ->
  PyStr.all_chars PyStr.is_digit fp = true ->
  (f_price f = (ip ++ String "." fp)%string
   \/ (fp = EmptyString /\ f_price f = ip)) ->
  parse_expense_message today message
  = Return (mkExpense (f_date f) (f_item f) (PyFloat.decimal_value ip fp)
              (f_store f) (f_category f) (f_quantity f)).
Proof.
  intros Hf Hne Hi Hfp Hprice.
  destruct ip as [|c ip]; [contradiction|].
  destruct (float_of_decimal_numeral c ip Hi) as [Hint Hdot].
  unfold parse_expense_message. rewrite Hf. simpl.
  unfold build_expense, PyFloat.decimal_value.
  destruct Hprice as [-> | [-> ->]].
  - now rewrite (Hdot fp Hfp).
  - rewrite Hint. simpl. now rewrite append_empty.
Qed.



Lemma starts_number_false (c : ascii) :
  PyFloat.starts_number c = false ->
  PyStr.isspace c = false /\ PyFloat.c_isspace c = false.
Proof.
  destruct c as [[] [] [] [] [] [] [] []]; vm_compute;
    first [discriminate | split; reflexivity].
Qed.

Lemma rstrip_keeps_head (sp : ascii -> bool) (c : ascii) (s : string) :
  sp c = false ->
  exists t, PyStr.rstrip_with sp (String c s) = String c t.
Proof.
  intros H. simpl. destruct (PyStr.rstrip_with sp s) as [|k ks].
  - rewrite H. eauto.
  - eauto.
Qed.

Lemma string_to_double_refuses (c : ascii) (s : string) :
  PyFloat.starts_number c = false ->
  PyFloat.string_to_double (String c s) = None.
Proof.
  destruct c as [[] [] [] [] [] [] [] []]; intros H;
    first [reflexivity | vm_compute in H; discriminate H].
Qed.

Lemma from_string_inner_refuses (c : ascii) (s : string) :
  PyFloat.starts_number c = false ->
  PyFloat.from_string_inner (String c s) = None.
Proof.
  intros H. destruct (starts_number_false c H) as [_ Hc].
  unfold PyFloat.from_string_inner.
  rewrite lstrip_fixed by exact Hc.
  destruct (rstrip_keeps_head PyFloat.c_isspace c s Hc) as [t ->].
  now rewrite (string_to_double_refuses c t H).
Qed.

Lemma transform_keeps_bad_start (c : ascii) (s : string) :
  PyFloat.starts_number c = false ->
  exists c' s',
    PyFloat.transform_decimal_and_space (String c s) = String c' s'
    /\ PyFloat.starts_number c' = false.
Proof.
  intros H. destruct (starts_number_false c H) as [Hs _].
  unfold PyFloat.transform_decimal_and_space.
  destruct (PyStr.all_chars PyFloat.is_ascii (String c s)); [eauto|].
  simpl. destruct (PyStr.code c <? 127)%N; [eauto|].
  rewrite Hs. exists "?"%char, EmptyString. split; reflexivity.
Qed.

Lemma remove_underscores_head (c : ascii) (s : string) :
  PyFloat.remove_underscores "000" (String c s) = None
  \/ exists t, PyFloat.remove_underscores "000" (String c s)
               = Some (String c t).
Proof.
  simpl. destruct (Ascii.eqb c "_"); [now left|].
  destruct (PyFloat.remove_underscores c s) as [t|]; simpl; eauto.
Qed.

(** [float] refuses text that starts with a character no numeral starts
    with. *)
Lemma float_refuses_bad_start (c : ascii) (s : string) :
  PyFloat.starts_number c = false ->
  PyFloat.float_of_str (String c s)
  = Raise (ValueError (FloatConversion (String c s))).
Proof.
  intros H. unfold PyFloat.float_of_str.
  destruct (transform_keeps_bad_start c s H) as (c' & s' & -> & H').
  destruct (PyStr.has_char "_" (String c' s')).
  - destruct (remove_underscores_head c' s') as [-> | [t ->]];
      [reflexivity|].
    now rewrite (from_string_inner_refuses c' t H').
  - now rewrite (from_string_inner_refuses c' s' H').
Qed.

(** X10: a price segment that starts with a character no numeral starts
    with (a currency sign, a letter other than i or n) is refused with
    the conversion error of [float], and so is an empty price segment. *)
Theorem price_bad_start_refused (today : Date.date) (message : string)
    (f : Fields) :
  resolve_segments today message = Return f ->
  PyStr.starts_with PyFloat.starts_number (f_price f) = false ->
  parse_expense_message today message
  = Raise (ValueError (FloatConversion (f_price f))).
Proof.
  intros Hf H. unfold parse_expense_message. rewrite Hf. simpl.
  unfold build_expense.
  destruct (f_price f) as [|c s].
  - reflexivity.
  - simpl in H. now rewrite (float_refuses_bad_start c s H).
Qed.

Lemma price_bad_start_refused_witness :
  resolve_segments sample_today "Eggs, $3.50, Walmart, Groceries"
  = Return (mkFields sample_today "Eggs" "$3.50" "Walmart" "Groceries" "")
  /\ PyStr.starts_with PyFloat.starts_number "$3.50" = false
  /\ parse_expense_message sample_today "Eggs, $3.50, Walmart, Groceries"
     = Raise (ValueError (FloatConversion "$3.50")).
Proof.
  split; [reflexivity|]. split; [reflexivity|].
  exact (price_bad_start_refused sample_today
           "Eggs, $3.50, Walmart, Groceries"
           (mkFields sample_today "Eggs" "$3.50" "Walmart" "Groceries" "")
           eq_refl eq_refl).
Defined.

(** * Further properties of the handler *)












(** * The request and the start-up check *)

Lemma isoformat_injective (d1 d2 : Date.date) :
  Date.valid_date (Date.year d1) (Date.month d1) (Date.day d1) = true ->
  Date.valid_date (Date.year d2) (Date.month d2) (Date.day d2) = true ->
  Date.isoformat d1 = Date.isoformat d2 -> d1 = d2.
Proof.
  intros V1 V2 E.
  pose proof (strptime_isoformat d1 V1) as R1.
  pose proof (strptime_isoformat d2 V2) as R2.
  rewrite E, R2 in R1. now injection R1.
Qed.

(** X16: the properties sent to the database tell the records apart: two
    records with dates of the calendar and the same properties are the
    same record; no field is lost or merged in the request. *)
Theorem properties_of_injective (e1 e2 : Expense) :
  Date.valid_date (Date.year (date e1)) (Date.month (date e1))
    (Date.day (date e1)) = true ->
  Date.valid_date (Date.year (date e2)) (Date.month (date e2))
    (Date.day (date e2)) = true ->
  properties_of e1 = properties_of e2 -> e1 = e2.
Proof.
  destruct e1 as [d1 i1 p1 s1 c1 q1], e2 as [d2 i2 p2 s2 c2 q2].
  cbn [date]. intros V1 V2 H.
  unfold properties_of, text_run in H. cbn [date item price store category
                                             quantity] in H.
  remember (Date.isoformat d1) as x1 eqn:E1.
  remember (Date.isoformat d2) as x2 eqn:E2.
  injection H as Hd Hi Hp Hs Hc Hq.
  rewrite E1, E2 in Hd.
  rewrite (isoformat_injective d1 d2 V1 V2 Hd).
  now subst.
Qed.

Lemma properties_of_injective_witness :
  Date.valid_date 2026 11 3 = true
  /\ mkExpense sample_today "Eggs" (S754_finite false 7881299347898368 (-51))
       "Walmart" "Groceries" ""
     = mkExpense (Date.mkDate 2026 11 3) "Eggs" (PyFloat.decimal_value "3" "50")
         "Walmart" "Groceries" "".
Proof.
  split; [reflexivity|].
  apply (properties_of_injective
           (mkExpense sample_today "Eggs"
              (S754_finite false 7881299347898368 (-51))
              "Walmart" "Groceries" "")
           (mkExpense (Date.mkDate 2026 11 3) "Eggs"
              (PyFloat.decimal_value "3" "50") "Walmart" "Groceries" "")).
  - reflexivity.
  - reflexivity.
  - vm_compute; reflexivity.
Defined.

(** X17: the start-up check passes exactly when each of the three
    variables is set to a string that is not empty; otherwise it raises
    the [ValueError] about missing variables.  An empty value counts as
    missing, a value of blanks does not. *)
Theorem check_environment_iff (a b c : option string) :
  (check_environment a b c = Return tt
   <-> is_set a /\ is_set b /\ is_set c)
  /\ (check_environment a b c = Return tt
      \/ check_environment a b c
         = Raise (ValueError (Literal missing_environment_text))).
Proof.
  assert (T : forall v, truthy v = true <-> is_set v).
  { intros [[|ch s]|]; simpl; split; try discriminate.
    - intros (s & E & N). injection E as <-. contradiction.
    - intros _. exists (String ch s). split; [reflexivity|discriminate].
    - reflexivity.
    - intros (s & E & _). discriminate E. }
  unfold check_environment. simpl. rewrite andb_true_r.
  split.
  - rewrite <- !T.
    destruct (truthy a), (truthy b), (truthy c); simpl;
      split; try discriminate; try tauto;
      intros (? & ? & ?); discriminate.
  - destruct (truthy a), (truthy b), (truthy c); simpl; tauto.
Qed.

Lemma check_environment_iff_witness :
  check_environment (Some "123:abc") (Some "secret") (Some " ") = Return tt
  /\ check_environment (Some "123:abc") (Some "") (Some "db")
     = Raise (ValueError (Literal missing_environment_text))
  /\ (is_set (Some "123:abc") /\ is_set (Some "secret") /\ is_set (Some " ")).
Proof.
  split; [reflexivity|]. split; [reflexivity|].
  exact (proj1 (proj1 (check_environment_iff (Some "123:abc")
                         (Some "secret") (Some " "))) eq_refl).
Defined.

(** * What [strptime] takes for a date *)

Lemma one_char_sound (q : ascii -> bool) (s : string)
    (caps : Regex.captures) (rest : string) (caps' : Regex.captures) :
  In (rest, caps') (Regex.one_char q s caps) ->
  exists c, s = String c rest /\ q c = true.
Proof.
  destruct s as [|c s]; simpl; [contradiction|].
  destruct (q c) eqn:Q; simpl; [|contradiction].
  intros [E|[]]. injection E as <- _. eauto.
Qed.

(** The matcher finds only prefixes that the pattern describes. *)
Lemma matches_sound (r : Regex.regex) :
  forall (s : string) (caps : Regex.captures) (rest : string)
         (caps' : Regex.captures),
    In (rest, caps') (Regex.matches r s caps) ->
    exists p, s = (p ++ rest)%string /\ Regex.lang r p.
Proof.
  induction r as [c| |lo hi|r1 IH1 r2 IH2|r1 IH1 r2 IH2|name r1 IH1];
    intros s caps rest caps' H; simpl in H.
  - destruct (one_char_sound _ _ _ _ _ H) as (c' & -> & E).
    apply Ascii.eqb_eq in E. subst c'.
    exists (String c EmptyString). split; reflexivity.
  - destruct (one_char_sound _ _ _ _ _ H) as (c' & -> & E).
    exists (String c' EmptyString). split; [reflexivity|]. simpl. eauto.
  - destruct (one_char_sound _ _ _ _ _ H) as (c' & -> & E).
    exists (String c' EmptyString). split; [reflexivity|]. simpl. eauto.
  - apply in_flat_map in H as ([mid caps1] & H1 & H2). simpl in H2.
    destruct (IH1 _ _ _ _ H1) as (p1 & -> & L1).
    destruct (IH2 _ _ _ _ H2) as (p2 & -> & L2).
    exists (p1 ++ p2)%string. split.
    + clear. induction p1 as [|a p1 IH]; simpl; [reflexivity|].
      now rewrite IH.
    + simpl. eauto.
  - apply in_app_or in H as [H|H].
    + destruct (IH1 _ _ _ _ H) as (p & -> & L). exists p. simpl. auto.
    + destruct (IH2 _ _ _ _ H) as (p & -> & L). exists p. simpl. auto.
  - apply in_map_iff in H as ([rest1 caps1] & E & H1). simpl in E.
    injection E as <- _.
    destruct (IH1 _ _ _ _ H1) as (p & -> & L). exists p. simpl. auto.
Qed.

Lemma strptime_lang (s : string) (d : Date.date) :
  Date.strptime s = Return d -> Regex.lang Date.format_regex s.
Proof.
  unfold Date.strptime, Regex.re_match.
  destruct (Regex.matches Date.format_regex s []) as [|[rest found] ms] eqn:M;
    simpl; [discriminate|].
  destruct (String.eqb_spec rest EmptyString) as [->|]; simpl;
    [|discriminate].
  intros _.
  destruct (matches_sound Date.format_regex s [] EmptyString found)
    as (p & E & L).
  - rewrite M. now left.
  - rewrite append_empty in E. now subst p.
Qed.

Lemma length_app (s t : string) :
  String.length (s ++ t) = (String.length s + String.length t)%nat.
Proof. induction s as [|c s IH]; simpl; [reflexivity|]. now rewrite IH. Qed.

Lemma lang_directive_Y (p : string) :
  Regex.lang Date.directive_Y p ->
  exists c1 c2 c3 c4,
    p = String c1 (String c2 (String c3 (String c4 EmptyString)))
    /\ Forall (fun c => PyStr.is_digit c = true) [c1; c2; c3; c4].
Proof.
  cbn [Date.directive_Y Regex.lang].
  intros (a1 & b1 & -> & (c1 & -> & H1)
          & a2 & b2 & -> & (c2 & -> & H2)
          & a3 & b3 & -> & (c3 & -> & H3) & (c4 & -> & H4)).
  exists c1, c2, c3, c4. split; [reflexivity|].
  repeat (apply Forall_cons; [assumption|]). apply Forall_nil.
Qed.

Lemma lang_directive_m (p : string) :
  Regex.lang Date.directive_m p ->
  (1 <= String.length p <= 2)%nat.
Proof.
  cbn [Date.directive_m Regex.lang].
  intros [(a & b & -> & -> & (c & -> & _))
         |[(a & b & -> & -> & (c & -> & _))
          |(c & -> & _)]]; simpl; lia.
Qed.

Lemma lang_directive_d (p : string) :
  Regex.lang Date.directive_d p ->
  (1 <= String.length p <= 2)%nat.
Proof.
  cbn [Date.directive_d Regex.lang].
  intros [(a & b & -> & -> & (c & -> & _))
         |[(a & b & -> & (c0 & -> & _) & (c & -> & _))
          |[(a & b & -> & -> & (c & -> & _))
           |[(c & -> & _)
            |(a & b & -> & -> & (c & -> & _))]]]]; simpl; lia.
Qed.

Lemma strptime_shape (s : string) (d : Date.date) :
  Date.strptime s = Return d ->
  exists c1 c2 c3 c4 t,
    s = String c1 (String c2 (String c3 (String c4 (String "-" t))))
    /\ Forall (fun c => PyStr.is_digit c = true) [c1; c2; c3; c4]
    /\ (3 <= String.length t <= 5)%nat.
Proof.
  intros H. apply strptime_lang in H.
  unfold Date.format_regex in H. cbn [Regex.lang] in H.
  destruct H as (y & r1 & -> & Hy & h1 & r2 & -> & -> & m & r3 & -> & Hm
                 & h2 & dd & -> & -> & Hd).
  destruct (lang_directive_Y y Hy) as (c1 & c2 & c3 & c4 & -> & F).
  apply lang_directive_m in Hm. apply lang_directive_d in Hd.
  exists c1, c2, c3, c4, (m ++ String "-" dd)%string.
  split; [reflexivity|]. split; [exact F|].
  rewrite length_app. simpl. lia.
Qed.

(** X18: [strptime] accepts only text of 8 to 10 characters that starts
    with four digits and a hyphen; in front of a message, nothing else is
    taken for a date. *)
Theorem date_segment_shape (s : string) (d : Date.date) :
  Date.strptime s = Return d ->
  exists c1 c2 c3 c4 t,
    s = String c1 (String c2 (String c3 (String c4 (String "-" t))))
    /\ Forall (fun c => PyStr.is_digit c = true) [c1; c2; c3; c4]
    /\ (3 <= String.length t <= 5)%nat.
Proof. intros H. now apply (strptime_shape s d). Qed.

Lemma date_segment_shape_witness :
  Date.strptime "2024-1-5" = Return (Date.mkDate 2024 1 5)
  /\ exists c1 c2 c3 c4 t,
       "2024-1-5"
       = String c1 (String c2 (String c3 (String c4 (String "-" t))))
       /\ Forall (fun c => PyStr.is_digit c = true) [c1; c2; c3; c4]
       /\ (3 <= String.length t <= 5)%nat.
Proof.
  split; [reflexivity|].
  exact (date_segment_shape "2024-1-5" (Date.mkDate 2024 1 5) eq_refl).
Defined.

(** X19: in a message of five trimmed parts, a first part that does not
    start with four digits and a hyphen is the item: with a numeric second
    part the record has the processing date and the five parts as item,
    price, store, category and quantity. *)
Theorem item_not_taken_for_date (today : Date.date)
    (message s0 s1 s2 s3 s4 : string) (p : PyFloat.float) :
  split_parts message = [s0; s1; s2; s3; s4] ->
  Date.starts_like_date s0 = false ->
  PyFloat.float_of_str s1 = Return p ->
  parse_expense_message today message
  = Return (mkExpense today s0 p s2 s3 s4).
Proof.
  intros H Hshape Hp.
  assert (Hd : succeeded (Date.strptime s0) = false).
  { destruct (Date.strptime s0) as [d|e] eqn:E; [|reflexivity].
    destruct (strptime_shape s0 d E)
      as (c1 & c2 & c3 & c4 & t & -> & F & _).
    inversion F as [|? ? H1 F1]; subst. inversion F1 as [|? ? H2 F2]; subst.
    inversion F2 as [|? ? H3 F3]; subst. inversion F3 as [|? ? H4 _]; subst.
    simpl in Hshape. rewrite H1, H2, H3, H4 in Hshape.
    discriminate Hshape. }
  unfold parse_expense_message.
  rewrite (resolve_five_undated today message s0 s1 s2 s3 s4 H Hd).
  simpl. unfold build_expense. simpl. now rewrite Hp.
Qed.

Lemma item_not_taken_for_date_witness :
  split_parts "7-Up, 1.25, Costco, Drinks, 2 cans"
  = ["7-Up"; "1.25"; "Costco"; "Drinks"; "2 cans"]
  /\ Date.starts_like_date "7-Up" = false
  /\ parse_expense_message sample_today "7-Up, 1.25, Costco, Drinks, 2 cans"
     = Return (mkExpense sample_today "7-Up" (PyFloat.decimal_value "1" "25")
                 "Costco" "Drinks" "2 cans").
Proof.
  split; [reflexivity|]. split; [reflexivity|].
  apply (item_not_taken_for_date sample_today
           "7-Up, 1.25, Costco, Drinks, 2 cans"
           "7-Up" "1.25" "Costco" "Drinks" "2 cans").
  - reflexivity.
  - reflexivity.
  - vm_compute; reflexivity.
Defined.

(** * The sign of a price *)

Local Open Scope Z_scope.

Lemma shr_1_nonneg (mrs : shr_record) :
  0 <= shr_m mrs -> 0 <= shr_m (shr_1 mrs).
Proof.
  destruct mrs as [m r s]. simpl.
  destruct m as [|[p|p|]|[p|p|]]; simpl; lia.
Qed.

Lemma iter_pos_invariant {A : Type} (P : A -> Prop) (f : A -> A) :
  (forall x, P x -> P (f x)) ->
  forall (n : positive) (x : A), P x -> P (iter_pos f n x).
Proof.
  intros Hf. induction n as [n IH|n IH|]; intros x Hx; simpl; auto.
Qed.

Lemma shr_fexp_nonneg (m e : Z) (l : location) :
  0 <= m -> 0 <= shr_m (fst (shr_fexp PyFloat.prec PyFloat.emax m e l)).
Proof.
  intros Hm. unfold shr_fexp, shr.
  assert (H0 : 0 <= shr_m (shr_record_of_loc m l))
    by (destruct l as [|[]]; exact Hm).
  destruct (fexp PyFloat.prec PyFloat.emax (Zdigits2 m + e) - e) as [|p|p];
    simpl; try exact H0.
  apply (iter_pos_invariant (fun x => 0 <= shr_m x)); [|exact H0].
  exact shr_1_nonneg.
Qed.

Lemma round_nearest_even_nonneg (m : Z) (l : location) :
  0 <= m -> 0 <= round_nearest_even m l.
Proof.
  intros Hm. destruct l as [|[]]; simpl; try lia.
  destruct (Z.even m); lia.
Qed.

(** Rounding a quotient that is not negative gives a zero, a finite
    number or an infinity of the sign asked for. *)
Lemma binary_round_aux_sign (sx : bool) (mx ex : Z) (lx : location) :
  0 <= mx ->
  let x := binary_round_aux PyFloat.prec PyFloat.emax sx mx ex lx in
  x = S754_zero sx \/ x = S754_infinity sx
  \/ exists m e, x = S754_finite sx m e.
Proof.
  intros Hm. unfold binary_round_aux.
  pose proof (shr_fexp_nonneg mx ex lx Hm) as H1.
  destruct (shr_fexp PyFloat.prec PyFloat.emax mx ex lx) as [mrs' e'].
  simpl in H1.
  pose proof (shr_fexp_nonneg
                (round_nearest_even (shr_m mrs') (loc_of_shr_record mrs'))
                e' loc_Exact
                (round_nearest_even_nonneg _ _ H1)) as H2.
  destruct (shr_fexp PyFloat.prec PyFloat.emax
              (round_nearest_even (shr_m mrs') (loc_of_shr_record mrs'))
              e' loc_Exact) as [mrs'' e''].
  simpl in H2. simpl.
  destruct (shr_m mrs'') as [|m|m]; [now left| |lia].
  match goal with |- context [if ?b then _ else _] => destruct b end.
  - right. right. exists m, e''. reflexivity.
  - right. left. reflexivity.
Qed.

Lemma round_quotient_sign (neg : bool) (num den : positive) :
  let x := PyFloat.round_quotient neg num den in
  x = S754_zero neg \/ x = S754_infinity neg
  \/ exists m e, x = S754_finite neg m e.
Proof.
  unfold PyFloat.round_quotient, SFdiv_core_binary.
  set (e' := Z.min _ _).
  set (m' := match 0 - 0 - e' with
             | 0 => Zpos num
             | Zpos _ => Z.shiftl (Zpos num) (0 - 0 - e')
             | Zneg _ => 0
             end).
  assert (Hm' : 0 <= m').
  { subst m'. destruct (0 - 0 - e'); try lia.
    apply Z.shiftl_nonneg. lia. }
  pose proof (Z.div_eucl_eq m' (Zpos den) ltac:(lia)) as E.
  pose proof (Z.mod_pos_bound m' (Zpos den) ltac:(lia)) as B.
  unfold Z.modulo in B.
  destruct (Z.div_eucl m' (Zpos den)) as [q r].
  apply binary_round_aux_sign. nia.
Qed.

Lemma decimal_value_nonneg (ip fp : string) :
  SFleb (S754_zero false) (PyFloat.decimal_value ip fp) = true.
Proof.
  unfold PyFloat.decimal_value, PyFloat.of_decimal.
  destruct (Date.int_digits 0 (ip ++ fp)) as [|m|m]; try reflexivity.
  destruct (0 <=? - Z.of_nat (String.length fp)).
  - destruct (round_quotient_sign false
                (m * Z.to_pos (10 ^ (- Z.of_nat (String.length fp)))) 1)
      as [-> | [-> | (m' & e' & ->)]]; reflexivity.
  - destruct (round_quotient_sign false m
                (Z.to_pos (10 ^ (- - Z.of_nat (String.length fp)))))
      as [-> | [-> | (m' & e' & ->)]]; reflexivity.
Qed.

Local Close Scope Z_scope.

(** X20: a price written as digits, with or without a point and more
    digits, gives a record whose price is zero or more: it is neither
    negative nor NaN. *)
Theorem numeral_price_not_negative (today : Date.date) (message : string)
    (f : Fields) (ip fp : string) :
  resolve_segments today message = Return f ->
  ip <> EmptyString ->
  PyStr.all_chars PyStr.is_digit ip = true ->
  PyStr.all_chars PyStr.is_digit fp = true ->
  (f_price f = (ip ++ String "." fp)%string
   \/ (fp = EmptyString /\ f_price f = ip)) ->
  exists r,
    parse_expense_message today message = Return r
    /\ SFleb (S754_zero false) (price r) = true.
Proof.
  intros Hf Hne Hi Hfp Hprice.
  eexists. split.
  - exact (parse_numeral_price today message f ip fp Hf Hne Hi Hfp Hprice).
  - exact (decimal_value_nonneg ip fp).
Qed.

Lemma numeral_price_not_negative_witness :
  exists r,
    parse_expense_message sample_today "Bag, 0.00, Walmart, Groceries"
    = Return r
    /\ SFleb (S754_zero false) (price r) = true.
Proof.
  apply (numeral_price_not_negative sample_today
           "Bag, 0.00, Walmart, Groceries"
           (mkFields sample_today "Bag" "0.00" "Walmart" "Groceries" "")
           "0" "00").
  - reflexivity.
  - discriminate.
  - reflexivity.
  - reflexivity.
  - left. reflexivity.
Defined.
